(** * DALI lab 5: buzzer and push-buttons on an MSPM0 microcontroller

    A shallow embedding of [template_files/lab5/hw_interface.c],
    [template_files/lab5/hw_interface.h] and [template_files/lab5/lab5.c].

    The C code is register-level glue: every statement reads or writes a
    memory-mapped peripheral register.  The embedding therefore works over
    a register file (one 32-bit cell per register the code touches) and a
    small state-and-trace monad in which each C function is written
    statement by statement.  Registers are modelled as storage cells: a
    read returns the last value written.  The one register driven by the
    outside world, [GPIOA->DIN31_0], is set by the environment before each
    iteration of the main loop. *)

From Stdlib Require Import ZArith List Bool Lia.
From Stdlib Require Import Wf_nat.
Import ListNotations.
Local Open Scope Z_scope.

(** ** Machine integers: [uint32_t] and [uint16_t] as [Z] with wrap-around *)

Definition u32 (z : Z) : Z := z mod 2 ^ 32.
Definition u16 (z : Z) : Z := z mod 2 ^ 16.

(** [~x] on a [uint32_t]. *)
Definition not32 (z : Z) : Z := u32 (Z.lnot z).

(** [x << n] on a [uint32_t]. *)
Definition shl32 (z n : Z) : Z := u32 (Z.shiftl z n).

(** ** Peripheral registers

    A register is named by its peripheral instance and by the path of the
    field inside the peripheral's register struct, as the C code writes it
    ([TIMA1->COUNTERREGS.CTRCTL] is [(TIMA1, COUNTERREGS_CTRCTL)]). *)

Inductive periph : Type := GPIOA | IOMUX | TIMG0 | TIMA1 | NVIC.

Inductive field : Type :=
| GPRCM_RSTCTL
| GPRCM_PWREN
| CLKSEL
| CLKDIV
| COUNTERREGS_CTRCTL
| COUNTERREGS_LOAD
| COUNTERREGS_CC_01 (i : Z)
| COUNTERREGS_CCACT_01 (i : Z)
| COMMONREGS_CCPD
| COMMONREGS_CCLKCTL
| CPU_INT_IIDX
| CPU_INT_IMASK
| DIN31_0
| SECCFG_PINCM (i : Z)
| ISER (i : Z).

Definition reg : Type := (periph * field)%type.

Definition periph_eqb (p q : periph) : bool :=
  match p, q with
  | GPIOA, GPIOA | IOMUX, IOMUX | TIMG0, TIMG0 | TIMA1, TIMA1 | NVIC, NVIC => true
  | _, _ => false
  end.

Definition field_eqb (f g : field) : bool :=
  match f, g with
  | GPRCM_RSTCTL, GPRCM_RSTCTL
  | GPRCM_PWREN, GPRCM_PWREN
  | CLKSEL, CLKSEL
  | CLKDIV, CLKDIV
  | COUNTERREGS_CTRCTL, COUNTERREGS_CTRCTL
  | COUNTERREGS_LOAD, COUNTERREGS_LOAD
  | COMMONREGS_CCPD, COMMONREGS_CCPD
  | COMMONREGS_CCLKCTL, COMMONREGS_CCLKCTL
  | CPU_INT_IIDX, CPU_INT_IIDX
  | CPU_INT_IMASK, CPU_INT_IMASK
  | DIN31_0, DIN31_0 => true
  | COUNTERREGS_CC_01 i, COUNTERREGS_CC_01 j
  | COUNTERREGS_CCACT_01 i, COUNTERREGS_CCACT_01 j
  | SECCFG_PINCM i, SECCFG_PINCM j
  | ISER i, ISER j => i =? j
  | _, _ => false
  end.

Definition reg_eqb (r r' : reg) : bool :=
  periph_eqb (fst r) (fst r') && field_eqb (snd r) (snd r').

(** The register file. *)
Definition store : Type := reg -> Z.

(** Two register files are the same when every register holds the same
    value. *)
Definition same_regs (s s' : store) : Prop := forall r, s r = s' r.

Definition upd (s : store) (r : reg) (v : Z) : store :=
  fun r' => if reg_eqb r r' then v else s r'.

(** All registers zero: the state the peripherals are in before [main]. *)
Definition reset_store : store := fun _ => 0.

(** ** Register accesses as a state-and-trace monad

    A computation maps the register file to a result, the new register
    file and the bus accesses it performed, in program order. *)

Inductive event : Type :=
| EvRead (r : reg) (v : Z)
| EvWrite (r : reg) (v : Z).

Definition M (A : Type) : Type := store -> A * store * list event.

Definition ret {A : Type} (a : A) : M A := fun s => (a, s, []).

Definition bind {A B : Type} (m : M A) (k : A -> M B) : M B :=
  fun s =>
    let '(a, s1, t1) := m s in
    let '(b, s2, t2) := k a s1 in
    (b, s2, t1 ++ t2).

Notation "x <- m ;; k" := (bind m (fun x => k))
  (at level 61, m at next level, right associativity).
Notation "m ;; k" := (bind m (fun _ => k))
  (at level 61, right associativity).

(** [... = *r] *)
Definition read (r : reg) : M Z := fun s => (s r, s, [EvRead r (s r)]).

(** [*r = v]: the register keeps the low 32 bits. *)
Definition write (r : reg) (v : Z) : M unit :=
  fun s => (tt, upd s r (u32 v), [EvWrite r (u32 v)]).

(** [*r |= v] and [*r &= v]: a read followed by a write. *)
Definition or_assign (r : reg) (v : Z) : M unit :=
  c <- read r ;; write r (Z.lor c v).

Definition and_assign (r : reg) (v : Z) : M unit :=
  c <- read r ;; write r (Z.land c v).

Definition exec {A : Type} (m : M A) (s : store) : store := snd (fst (m s)).
Definition trace {A : Type} (m : M A) (s : store) : list event := snd (m s).

(** The writes among a list of bus accesses, and those that hit a given
    peripheral. *)
Definition is_write_to (p : periph) (e : event) : bool :=
  match e with
  | EvWrite r _ => periph_eqb p (fst r)
  | EvRead _ _ => false
  end.

Definition writes_to (p : periph) (t : list event) : list event :=
  filter (is_write_to p) t.

(** ** The vendor header

    [<ti/devices/msp/msp.h>] is not part of the repository.  The macros
    the code takes from it are the fields of this record; the functions
    below are parameterised by it. *)

Record msp_header : Type := {
  GPIO_RSTCTL_KEY_UNLOCK_W : Z;
  GPIO_RSTCTL_RESETSTKYCLR_CLR : Z;
  GPIO_RSTCTL_RESETASSERT_ASSERT : Z;
  GPIO_PWREN_KEY_UNLOCK_W : Z;
  GPIO_PWREN_ENABLE_ENABLE : Z;
  IOMUX_PINCM37 : Z;
  IOMUX_PINCM53 : Z;
  IOMUX_PINCM54 : Z;
  IOMUX_PINCM55 : Z;
  IOMUX_PINCM59 : Z;
  IOMUX_PINCM_PC_CONNECTED : Z;
  IOMUX_PINCM37_PF_TIMA1_CCP0 : Z;
  IOMUX_PINCM_INENA_ENABLE : Z;
  IOMUX_PINCM_INV_DISABLE : Z;
  IOMUX_PINCM_PIPU_ENABLE : Z;
  IOMUX_PINCM_PIPD_DISABLE : Z;
  IOMUX_PINCM_HYSTEN_DISABLE : Z;
  IOMUX_PINCM_WUEN_DISABLE : Z;
  GPTIMER_RSTCTL_KEY_UNLOCK_W : Z;
  GPTIMER_RSTCTL_RESETSTKYCLR_CLR : Z;
  GPTIMER_RSTCTL_RESETASSERT_ASSERT : Z;
  GPTIMER_PWREN_KEY_UNLOCK_W : Z;
  GPTIMER_PWREN_ENABLE_ENABLE : Z;
  GPTIMER_CLKSEL_LFCLK_SEL_ENABLE : Z;
  GPTIMER_CLKSEL_BUSCLK_SEL_ENABLE : Z;
  GPTIMER_CLKDIV_RATIO_DIV_BY_4 : Z;
  GPTIMER_CTRCTL_REPEAT_REPEAT_1 : Z;
  GPTIMER_CTRCTL_CM_UP : Z;
  GPTIMER_CTRCTL_CVAE_ZEROVAL : Z;
  GPTIMER_CTRCTL_EN_DISABLED : Z;
  GPTIMER_CTRCTL_EN_ENABLED : Z;
  GPTIMER_CPU_INT_IMASK_Z_SET : Z;
  GPTIMER_CPU_INT_IIDX_STAT_Z : Z;
  GPTIMER_CCLKCTL_CLKEN_ENABLED : Z;
  GPTIMER_CCACT_01_ZACT_CCP_HIGH : Z;
  GPTIMER_CCACT_01_CUACT_CCP_LOW : Z;
  GPTIMER_CCPD_C0CCP0_OUTPUT : Z;
  GPTIMER_CCPD_C0CCP1_OUTPUT : Z;
  TIMG0_INT_IRQn : Z
}.

(** The macros are [uint32_t] constants. *)
Definition is_u32 (z : Z) : bool := (0 <=? z) && (z <? 2 ^ 32).

(** What the proofs need of a header: the timer macros they inspect are
    32-bit values, the enable bit of [CTRCTL] is not the empty mask, and
    the two clock selections are told apart. *)
Definition header_ok (h : msp_header) : bool :=
  forallb is_u32
    [ GPTIMER_CLKSEL_LFCLK_SEL_ENABLE h; GPTIMER_CLKSEL_BUSCLK_SEL_ENABLE h;
      GPTIMER_CLKDIV_RATIO_DIV_BY_4 h; GPTIMER_CTRCTL_REPEAT_REPEAT_1 h;
      GPTIMER_CTRCTL_EN_ENABLED h; GPTIMER_CPU_INT_IMASK_Z_SET h;
      GPTIMER_CCACT_01_ZACT_CCP_HIGH h; GPTIMER_CCACT_01_CUACT_CCP_LOW h ]
  && negb (GPTIMER_CTRCTL_EN_ENABLED h =? 0)
  && negb (GPTIMER_CLKSEL_LFCLK_SEL_ENABLE h =? GPTIMER_CLKSEL_BUSCLK_SEL_ENABLE h).

(** ** [hw_interface.h] *)

Definition POWER_STARTUP_DELAY : Z := 16.

Definition SW1 : Z := shl32 1 23.
Definition SW2 : Z := shl32 1 24.
Definition SW3 : Z := shl32 1 25.
Definition SW4 : Z := shl32 1 26.

(** ** [hw_interface.c] *)

Section Lab5.

Variable h : msp_header.

(** The three functions left to the student: each body is a bare
    [return]. *)
Definition SetTimerA1Period (period : Z) : M unit := ret tt.

Definition EnableTimerA1PWM : M unit := ret tt.

Definition DisableTimerA1PWM : M unit := ret tt.

(** A busy-wait in inline assembly on a scratch CPU register; it accesses
    no peripheral. *)
Definition delay_cycles (cycles : Z) : M unit := ret tt.

Definition input_configuration : Z :=
  Z.lor (IOMUX_PINCM_PC_CONNECTED h)
  (Z.lor (IOMUX_PINCM_INENA_ENABLE h)
  (Z.lor 1
  (Z.lor (IOMUX_PINCM_INV_DISABLE h)
  (Z.lor (IOMUX_PINCM_PIPU_ENABLE h)
  (Z.lor (IOMUX_PINCM_PIPD_DISABLE h)
  (Z.lor (IOMUX_PINCM_HYSTEN_DISABLE h)
         (IOMUX_PINCM_WUEN_DISABLE h))))))).

Definition InitializeGPIO : M unit :=
  write (GPIOA, GPRCM_RSTCTL)
    (Z.lor (GPIO_RSTCTL_KEY_UNLOCK_W h)
       (Z.lor (GPIO_RSTCTL_RESETSTKYCLR_CLR h) (GPIO_RSTCTL_RESETASSERT_ASSERT h))) ;;
  write (GPIOA, GPRCM_PWREN)
    (Z.lor (GPIO_PWREN_KEY_UNLOCK_W h) (GPIO_PWREN_ENABLE_ENABLE h)) ;;
  delay_cycles POWER_STARTUP_DELAY ;;
  write (IOMUX, SECCFG_PINCM (IOMUX_PINCM37 h))
    (Z.lor (IOMUX_PINCM_PC_CONNECTED h) (IOMUX_PINCM37_PF_TIMA1_CCP0 h)) ;;
  write (IOMUX, SECCFG_PINCM (IOMUX_PINCM53 h)) input_configuration ;;
  write (IOMUX, SECCFG_PINCM (IOMUX_PINCM54 h)) input_configuration ;;
  write (IOMUX, SECCFG_PINCM (IOMUX_PINCM55 h)) input_configuration ;;
  write (IOMUX, SECCFG_PINCM (IOMUX_PINCM59 h)) input_configuration ;;
  delay_cycles POWER_STARTUP_DELAY.

Definition SetTimerG0Delay (delay : Z) : M unit :=
  write (TIMG0, COUNTERREGS_LOAD) (u16 delay).

(** CMSIS [NVIC_EnableIRQ]: sets the interrupt's bit in [NVIC->ISER[0]]. *)
Definition NVIC_EnableIRQ (irqn : Z) : M unit :=
  write (NVIC, ISER 0) (shl32 1 (Z.land irqn 31)).

Definition EnableTimerG0 : M unit :=
  or_assign (TIMG0, COUNTERREGS_CTRCTL) (GPTIMER_CTRCTL_EN_ENABLED h) ;;
  NVIC_EnableIRQ (TIMG0_INT_IRQn h).

Definition InitializeTimerG0 : M unit :=
  write (TIMG0, GPRCM_RSTCTL)
    (Z.lor (GPTIMER_RSTCTL_KEY_UNLOCK_W h)
       (Z.lor (GPTIMER_RSTCTL_RESETSTKYCLR_CLR h) (GPTIMER_RSTCTL_RESETASSERT_ASSERT h))) ;;
  write (TIMG0, GPRCM_PWREN)
    (Z.lor (GPTIMER_PWREN_KEY_UNLOCK_W h) (GPTIMER_PWREN_ENABLE_ENABLE h)) ;;
  delay_cycles 16 ;;
  write (TIMG0, CLKSEL) (GPTIMER_CLKSEL_LFCLK_SEL_ENABLE h) ;;
  write (TIMG0, COUNTERREGS_CTRCTL) (GPTIMER_CTRCTL_REPEAT_REPEAT_1 h) ;;
  or_assign (TIMG0, CPU_INT_IMASK) (GPTIMER_CPU_INT_IMASK_Z_SET h) ;;
  write (TIMG0, COMMONREGS_CCLKCTL) (GPTIMER_CCLKCTL_CLKEN_ENABLED h).

(** The handler reads the interrupt index and does nothing in either
    branch of the [switch]. *)
Definition TIMG0_IRQHandler : M unit :=
  iidx <- read (TIMG0, CPU_INT_IIDX) ;;
  if iidx =? GPTIMER_CPU_INT_IIDX_STAT_Z h then ret tt else ret tt.

Definition InitializeTimerA1_PWM : M unit :=
  write (TIMA1, GPRCM_RSTCTL)
    (Z.lor (GPTIMER_RSTCTL_KEY_UNLOCK_W h)
       (Z.lor (GPTIMER_RSTCTL_RESETSTKYCLR_CLR h) (GPTIMER_RSTCTL_RESETASSERT_ASSERT h))) ;;
  write (TIMA1, GPRCM_PWREN)
    (Z.lor (GPTIMER_PWREN_KEY_UNLOCK_W h) (GPTIMER_PWREN_ENABLE_ENABLE h)) ;;
  delay_cycles POWER_STARTUP_DELAY ;;
  write (TIMA1, CLKSEL) (GPTIMER_CLKSEL_BUSCLK_SEL_ENABLE h) ;;
  write (TIMA1, CLKDIV) (GPTIMER_CLKDIV_RATIO_DIV_BY_4 h) ;;
  write (TIMA1, COUNTERREGS_CCACT_01 0)
    (Z.lor (GPTIMER_CCACT_01_ZACT_CCP_HIGH h) (GPTIMER_CCACT_01_CUACT_CCP_LOW h)) ;;
  write (TIMA1, COUNTERREGS_CTRCTL)
    (Z.lor (GPTIMER_CTRCTL_REPEAT_REPEAT_1 h)
       (Z.lor (GPTIMER_CTRCTL_CM_UP h)
          (Z.lor (GPTIMER_CTRCTL_CVAE_ZEROVAL h) (GPTIMER_CTRCTL_EN_DISABLED h)))) ;;
  write (TIMA1, COMMONREGS_CCPD)
    (Z.lor (GPTIMER_CCPD_C0CCP0_OUTPUT h) (GPTIMER_CCPD_C0CCP1_OUTPUT h)) ;;
  write (TIMA1, COMMONREGS_CCLKCTL) (GPTIMER_CCLKCTL_CLKEN_ENABLED h) ;;
  write (TIMA1, COUNTERREGS_LOAD) 3999 ;;
  load <- read (TIMA1, COUNTERREGS_LOAD) ;;
  write (TIMA1, COUNTERREGS_CC_01 0) (u32 (load + 1) / 2) ;;
  or_assign (TIMA1, COUNTERREGS_CTRCTL) (GPTIMER_CTRCTL_EN_ENABLED h).

(** ** [lab5.c] *)

(** [__WFI()]: the core sleeps until the next interrupt; no register is
    accessed. *)
Definition WFI : M unit := ret tt.

(** [TIMA1->COUNTERREGS.CTRCTL |= GPTIMER_CTRCTL_EN_ENABLED] and
    [TIMA1->COUNTERREGS.CTRCTL &= ~GPTIMER_CTRCTL_EN_ENABLED], the two
    statements [main] uses to start and stop the buzzer. *)
Definition buzzer_on : M unit :=
  or_assign (TIMA1, COUNTERREGS_CTRCTL) (GPTIMER_CTRCTL_EN_ENABLED h).

Definition buzzer_off : M unit :=
  and_assign (TIMA1, COUNTERREGS_CTRCTL) (not32 (GPTIMER_CTRCTL_EN_ENABLED h)).

(** [main] up to the [while (1)]. *)
Definition main_setup : M unit :=
  InitializeGPIO ;;
  InitializeTimerG0 ;;
  InitializeTimerA1_PWM ;;
  delay_cycles 1600000 ;;
  buzzer_off ;;
  SetTimerG0Delay 20 ;;
  EnableTimerG0.

(** The body of the [while (1)]. *)
Definition loop_body : M unit :=
  din <- read (GPIOA, DIN31_0) ;;
  let input := Z.land din (u32 (SW1 + SW2 + SW3 + SW4)) in
  (if Z.land input SW1 =? 0 then buzzer_on else buzzer_off) ;;
  WFI.

(** The environment: the pins present the sample [din] on
    [GPIOA->DIN31_0]. *)
Definition sample (din : Z) (s : store) : store :=
  upd s (GPIOA, DIN31_0) (u32 din).

(** One tick: the pins are sampled and the loop body runs once. *)
Definition tick (din : Z) (s : store) : store :=
  exec loop_body (sample din s).

Definition tick_trace (din : Z) (s : store) : list event :=
  trace loop_body (sample din s).

(** The register files after each tick of a run, and after the last. *)
Fixpoint states (samples : list Z) (s : store) : list store :=
  match samples with
  | [] => []
  | din :: rest => tick din s :: states rest (tick din s)
  end.

Definition run (samples : list Z) (s : store) : store :=
  fold_left (fun s din => tick din s) samples s.

(** ** Observations on the register file *)

(** The tone is on exactly when the enable bit of the PWM timer's
    [CTRCTL] is set. *)
Inductive ToneState : Type := Silent | Playing.

Definition pwm_enable_bit (s : store) : Z :=
  Z.land (s (TIMA1, COUNTERREGS_CTRCTL)) (GPTIMER_CTRCTL_EN_ENABLED h).

Definition tone_state (s : store) : ToneState :=
  if pwm_enable_bit s =? 0 then Silent else Playing.

(** The tone the shipped loop selects for a raw SW1 level. *)
Definition tone_of_level (pressed : bool) : ToneState :=
  if pressed then Playing else Silent.

(** The PWM period register and the duty compare register. *)
Definition pwm_load (s : store) : Z := s (TIMA1, COUNTERREGS_LOAD).
Definition pwm_compare (s : store) : Z := s (TIMA1, COUNTERREGS_CC_01 0).

(** Clock tree, as the comments of [InitializeTimerA1_PWM] and of [main]
    give it: BUSCLK is the 32 MHz system oscillator, LFCLK is the 32 kHz
    low-frequency clock (32768 Hz nominal), and the [DIV_BY_4] ratio
    divides the selected clock by 4.
    A timer counts [LOAD + 1] clock ticks per period. *)
Definition BUSCLK_HZ : Z := 32000000.
Definition LFCLK_HZ : Z := 32768.

Definition clock_source_hz (clksel : Z) : option Z :=
  if clksel =? GPTIMER_CLKSEL_BUSCLK_SEL_ENABLE h then Some BUSCLK_HZ
  else if clksel =? GPTIMER_CLKSEL_LFCLK_SEL_ENABLE h then Some LFCLK_HZ
  else None.

Definition clock_divider (clkdiv : Z) : option Z :=
  if clkdiv =? GPTIMER_CLKDIV_RATIO_DIV_BY_4 h then Some 4 else None.

Definition pwm_clock_hz (s : store) : option Z :=
  match clock_source_hz (s (TIMA1, CLKSEL)), clock_divider (s (TIMA1, CLKDIV)) with
  | Some f, Some d => Some (f / d)
  | _, _ => None
  end.

Definition pwm_frequency_hz (s : store) : option Z :=
  match pwm_clock_hz s with
  | Some f => Some (f / (pwm_load s + 1))
  | None => None
  end.

End Lab5.

(** The level of button SW1 in a raw sample: the buttons pull the pin to
    ground, so a 0 on bit 23 is a press. *)
Definition sw1_pressed (din : Z) : bool := negb (Z.testbit din 23).

(** A raw sample built from the four button levels ([true] is pressed);
    [other] gives the remaining pins of the port. *)
Definition button_sample (b1 b2 b3 b4 : bool) (other : Z) : Z :=
  Z.lor (Z.land (u32 other) (not32 (u32 (SW1 + SW2 + SW3 + SW4))))
    (Z.lor (if b1 then 0 else SW1)
       (Z.lor (if b2 then 0 else SW2)
          (Z.lor (if b3 then 0 else SW3) (if b4 then 0 else SW4)))).

(** The interval between two expiries of a timer that counts [ticks]
    clock ticks at [hz], in microseconds. *)
Definition interval_us (ticks hz : Z) : Z := ticks * 1000000 / hz.

(** ** A concrete header

    One assignment of the vendor macros, in the layout of the MSPM0G350x
    device headers, used to run the model on concrete inputs.  The general
    theorems below hold for every header that satisfies [header_ok] and do
    not depend on these numbers. *)
Definition mspm0_header : msp_header := {|
  GPIO_RSTCTL_KEY_UNLOCK_W := 0xB1000000;
  GPIO_RSTCTL_RESETSTKYCLR_CLR := 0x2;
  GPIO_RSTCTL_RESETASSERT_ASSERT := 0x1;
  GPIO_PWREN_KEY_UNLOCK_W := 0x26000000;
  GPIO_PWREN_ENABLE_ENABLE := 0x1;
  IOMUX_PINCM37 := 36;
  IOMUX_PINCM53 := 52;
  IOMUX_PINCM54 := 53;
  IOMUX_PINCM55 := 54;
  IOMUX_PINCM59 := 58;
  IOMUX_PINCM_PC_CONNECTED := 0x80;
  IOMUX_PINCM37_PF_TIMA1_CCP0 := 0x5;
  IOMUX_PINCM_INENA_ENABLE := 0x40000;
  IOMUX_PINCM_INV_DISABLE := 0x0;
  IOMUX_PINCM_PIPU_ENABLE := 0x20000;
  IOMUX_PINCM_PIPD_DISABLE := 0x0;
  IOMUX_PINCM_HYSTEN_DISABLE := 0x0;
  IOMUX_PINCM_WUEN_DISABLE := 0x0;
  GPTIMER_RSTCTL_KEY_UNLOCK_W := 0xB1000000;
  GPTIMER_RSTCTL_RESETSTKYCLR_CLR := 0x2;
  GPTIMER_RSTCTL_RESETASSERT_ASSERT := 0x1;
  GPTIMER_PWREN_KEY_UNLOCK_W := 0x26000000;
  GPTIMER_PWREN_ENABLE_ENABLE := 0x1;
  GPTIMER_CLKSEL_LFCLK_SEL_ENABLE := 0x2;
  GPTIMER_CLKSEL_BUSCLK_SEL_ENABLE := 0x8;
  GPTIMER_CLKDIV_RATIO_DIV_BY_4 := 0x3;
  GPTIMER_CTRCTL_REPEAT_REPEAT_1 := 0x2;
  GPTIMER_CTRCTL_CM_UP := 0x20;
  GPTIMER_CTRCTL_CVAE_ZEROVAL := 0x20000000;
  GPTIMER_CTRCTL_EN_DISABLED := 0x0;
  GPTIMER_CTRCTL_EN_ENABLED := 0x1;
  GPTIMER_CPU_INT_IMASK_Z_SET := 0x1;
  GPTIMER_CPU_INT_IIDX_STAT_Z := 0x1;
  GPTIMER_CCLKCTL_CLKEN_ENABLED := 0x1;
  GPTIMER_CCACT_01_ZACT_CCP_HIGH := 0x1;
  GPTIMER_CCACT_01_CUACT_CCP_LOW := 0x400;
  GPTIMER_CCPD_C0CCP0_OUTPUT := 0x1;
  GPTIMER_CCPD_C0CCP1_OUTPUT := 0x2;
  TIMG0_INT_IRQn := 16
|}.

(** The word one iteration of the main loop stores in
    [TIMA1->COUNTERREGS.CTRCTL], from the sample and the word [c] it finds
    there. *)
Definition ctrctl_after (h : msp_header) (din c : Z) : Z :=
  if sw1_pressed din
  then u32 (Z.lor c (GPTIMER_CTRCTL_EN_ENABLED h))
  else u32 (Z.land c (not32 (GPTIMER_CTRCTL_EN_ENABLED h))).

(** The register file at the first iteration of the main loop, on the
    concrete header, from reset. *)
Definition loop_entry : store := exec (main_setup mspm0_header) reset_store.

(** What [InitializeGPIO] needs of a header: the five pins it configures
    have different [PINCM] indices, and the [IOMUX] macros are 32-bit
    values. *)
Fixpoint all_distinct (l : list Z) : bool :=
  match l with
  | [] => true
  | x :: rest => negb (existsb (Z.eqb x) rest) && all_distinct rest
  end.

Definition button_pins (h : msp_header) : list Z :=
  [IOMUX_PINCM53 h; IOMUX_PINCM54 h; IOMUX_PINCM55 h; IOMUX_PINCM59 h].

Definition gpio_header_ok (h : msp_header) : bool :=
  all_distinct (IOMUX_PINCM37 h :: button_pins h)
  && forallb is_u32
       [ IOMUX_PINCM_PC_CONNECTED h; IOMUX_PINCM37_PF_TIMA1_CCP0 h;
         IOMUX_PINCM_INENA_ENABLE h; IOMUX_PINCM_INV_DISABLE h;
         IOMUX_PINCM_PIPU_ENABLE h; IOMUX_PINCM_PIPD_DISABLE h;
         IOMUX_PINCM_HYSTEN_DISABLE h; IOMUX_PINCM_WUEN_DISABLE h ].

(** The registers of TIMA1 that [InitializeTimerA1_PWM] assigns. *)
Definition pwm_init_fields : list field :=
  [ GPRCM_RSTCTL; GPRCM_PWREN; CLKSEL; CLKDIV; COUNTERREGS_CCACT_01 0;
    COUNTERREGS_CTRCTL; COMMONREGS_CCPD; COMMONREGS_CCLKCTL;
    COUNTERREGS_LOAD; COUNTERREGS_CC_01 0 ].

(** The word [InitializeTimerA1_PWM] first assigns to [CTRCTL]: repeat
    mode, counting up, with the timer disabled. *)
Definition pwm_mode_word (h : msp_header) : Z :=
  Z.lor (GPTIMER_CTRCTL_REPEAT_REPEAT_1 h)
    (Z.lor (GPTIMER_CTRCTL_CM_UP h)
       (Z.lor (GPTIMER_CTRCTL_CVAE_ZEROVAL h) (GPTIMER_CTRCTL_EN_DISABLED h))).

(** ** The delay loop of [delay_cycles]

    The body of [delay_cycles] is three Thumb instructions around a label:
    [SUBS scratch, cycles, #2], then [SUBS scratch, scratch, #4; NOP; BHS]
    back to the label.  [SUBS] subtracts modulo 2^32 and sets the carry
    flag when no borrow occurs; [BHS] branches while the carry is set. *)

(** [SUBS rd, rn, #imm], on 32-bit operands: the difference and the carry
    flag. *)
Definition subs (rn imm : Z) : Z * bool := (u32 (u32 rn - imm), imm <=? u32 rn).

(** The loop from the label on: the number of passes through
    [SUBS; NOP; BHS] when it is entered with [scratch].  Each pass that
    branches back leaves a smaller value in the register, which is what
    the recursion descends on. *)
Definition delay_measure (scratch : Z) : nat := Z.to_nat (u32 scratch).

Lemma delay_loop_decreases (scratch : Z) :
  snd (subs scratch 4) = true ->
  ltof Z delay_measure (fst (subs scratch 4)) scratch.
Proof.
  unfold ltof, delay_measure, subs. cbn [fst snd]. intros carry.
  apply Z.leb_le in carry.
  pose proof (Z.mod_pos_bound scratch (2 ^ 32) ltac:(lia)) as Hr.
  unfold u32 in *.
  rewrite !(Z.mod_small (scratch mod 2 ^ 32 - 4)) by lia.
  lia.
Qed.

Definition delay_loop_pass (scratch : Z)
    (again : forall s' : Z, ltof Z delay_measure s' scratch -> Z) : Z :=
  match bool_dec (snd (subs scratch 4)) true with
  | left carry =>
      1 + again (fst (subs scratch 4)) (delay_loop_decreases scratch carry)
  | right _ => 1
  end.

Definition delay_loop : Z -> Z :=
  Fix (well_founded_ltof Z delay_measure) (fun _ => Z) delay_loop_pass.

(** The passes of the loop for a call [delay_cycles(cycles)]. *)
Definition delay_cycles_passes (cycles : Z) : Z :=
  delay_loop (fst (subs cycles 2)).

(** Debouncing over [N] ticks, read on the one state of the program the
    buttons drive: a run of fewer than [N] ticks that all report the same
    raw SW1 level leaves the tone state as it was. *)
Definition debounced_over (h : msp_header) (N : nat) : Prop :=
  forall (level : bool) (samples : list Z) (s : store),
    Forall (fun din => sw1_pressed din = level) samples ->
    (length samples < N)%nat ->
    tone_state h (run h samples s) = tone_state h s.

(** * Properties *)

(** ** Bit-level facts about 32-bit registers *)

Lemma u32_testbit (z i : Z) : Z.testbit (u32 z) i = (i <? 32) && Z.testbit z i.
Proof. unfold u32. apply Z.testbit_mod_pow2. lia. Qed.

Lemma not32_testbit (z i : Z) :
  0 <= i -> Z.testbit (not32 z) i = (i <? 32) && negb (Z.testbit z i).
Proof.
  intros Hi. unfold not32. rewrite u32_testbit, Z.lnot_spec by assumption.
  reflexivity.
Qed.

Lemma u32_range (z : Z) : 0 <= u32 z < 2 ^ 32.
Proof. unfold u32. apply Z.mod_pos_bound. lia. Qed.

Lemma is_u32_spec (z : Z) : is_u32 z = true <-> 0 <= z < 2 ^ 32.
Proof. unfold is_u32. rewrite andb_true_iff, Z.leb_le, Z.ltb_lt. tauto. Qed.

Lemma u32_small (z : Z) : is_u32 z = true -> u32 z = z.
Proof. rewrite is_u32_spec. intros Hz. unfold u32. apply Z.mod_small, Hz. Qed.

Lemma is_u32_u32 (z : Z) : is_u32 (u32 z) = true.
Proof. apply is_u32_spec, u32_range. Qed.

Lemma u32_idem (z : Z) : u32 (u32 z) = u32 z.
Proof. apply u32_small, is_u32_u32. Qed.

Create Rewrite HintDb bits32.
#[local] Hint Rewrite Z.land_spec Z.lor_spec u32_testbit : bits32.
#[local] Hint Rewrite not32_testbit using assumption : bits32.

(** Equality of two words, bit by bit. *)
Ltac bitwise i :=
  apply Z.bits_inj'; intros i ?; autorewrite with bits32.

Ltac by_cases_on_bits :=
  repeat match goal with
         | |- context [Z.testbit ?a ?i] => destruct (Z.testbit a i)
         | |- context [?i <? 32] => destruct (i <? 32)
         end;
  try reflexivity; try discriminate.

(** [|= e] leaves the bits of [e] set. *)
Lemma land_after_or (c e : Z) :
  is_u32 e = true -> Z.land (u32 (Z.lor c e)) e = e.
Proof.
  intros He. rewrite <- (u32_small e He) at 2 3.
  bitwise i. by_cases_on_bits.
Qed.

(** [&= ~e] leaves the bits of [e] clear. *)
Lemma land_after_andnot (c e : Z) : Z.land (u32 (Z.land c (not32 e))) e = 0.
Proof.
  bitwise i. rewrite Z.bits_0. by_cases_on_bits.
Qed.

(** Repeating [|= e] or [&= m] stores the same word again. *)
Lemma or_twice (c e : Z) : u32 (Z.lor (u32 (Z.lor c e)) e) = u32 (Z.lor c e).
Proof. bitwise i. by_cases_on_bits. Qed.

Lemma and_twice (c m : Z) : u32 (Z.land (u32 (Z.land c m)) m) = u32 (Z.land c m).
Proof. bitwise i. by_cases_on_bits. Qed.

(** ** The button test of the main loop *)

Lemma SW1_is_bit_23 : SW1 = 2 ^ 23.
Proof. reflexivity. Qed.

(** [(input & SW1) == 0] holds exactly when bit 23 of the sample is 0,
    whatever the other pins read. *)
Lemma sw1_test (din : Z) :
  (Z.land (Z.land (u32 din) (u32 (SW1 + SW2 + SW3 + SW4))) SW1 =? 0)
  = sw1_pressed din.
Proof.
  assert (Hv : Z.land (Z.land (u32 din) (u32 (SW1 + SW2 + SW3 + SW4))) SW1
               = if Z.testbit din 23 then 2 ^ 23 else 0).
  { apply Z.bits_inj'. intros i Hi.
    rewrite !Z.land_spec, u32_testbit, SW1_is_bit_23.
    destruct (Z.eq_dec i 23) as [-> | Hne].
    - rewrite Z.pow2_bits_true by lia.
      change (Z.testbit (u32 (2 ^ 23 + SW2 + SW3 + SW4)) 23) with true.
      change (23 <? 32) with true.
      destruct (Z.testbit din 23); cbn [andb].
      + rewrite Z.pow2_bits_true by lia. reflexivity.
      + rewrite Z.bits_0. reflexivity.
    - rewrite (Z.pow2_bits_false 23 i) by lia. rewrite andb_false_r.
      destruct (Z.testbit din 23).
      + rewrite Z.pow2_bits_false by lia. reflexivity.
      + rewrite Z.bits_0. reflexivity. }
  rewrite Hv. unfold sw1_pressed.
  destruct (Z.testbit din 23); reflexivity.
Qed.

Lemma button_sample_sw1 (b1 b2 b3 b4 : bool) (other : Z) :
  sw1_pressed (button_sample b1 b2 b3 b4 other) = b1.
Proof.
  unfold sw1_pressed, button_sample.
  rewrite !Z.lor_spec, Z.land_spec, not32_testbit by lia.
  change (Z.testbit (u32 (SW1 + SW2 + SW3 + SW4)) 23) with true.
  change (23 <? 32) with true. cbn [negb andb].
  rewrite andb_false_r.
  destruct b1, b2, b3, b4; reflexivity.
Qed.

Section Lab5_properties.

Variable h : msp_header.

#[local] Abbreviation EN := (GPTIMER_CTRCTL_EN_ENABLED h).
#[local] Abbreviation CTRCTL_A1 := (TIMA1, COUNTERREGS_CTRCTL).

(** One iteration, spelled out: two reads, one write. *)
Lemma loop_body_sample (din : Z) (s : store) :
  loop_body h (sample din s)
  = (tt,
     upd (sample din s) CTRCTL_A1 (ctrctl_after h din (s CTRCTL_A1)),
     [ EvRead (GPIOA, DIN31_0) (u32 din);
       EvRead CTRCTL_A1 (s CTRCTL_A1);
       EvWrite CTRCTL_A1 (ctrctl_after h din (s CTRCTL_A1)) ]).
Proof.
  unfold loop_body, bind, read.
  change (sample din s (GPIOA, DIN31_0)) with (u32 din).
  rewrite sw1_test. unfold ctrctl_after.
  destruct (sw1_pressed din); reflexivity.
Qed.

Lemma tick_eq (din : Z) (s : store) :
  tick h din s = upd (sample din s) CTRCTL_A1 (ctrctl_after h din (s CTRCTL_A1)).
Proof. unfold tick, exec. rewrite loop_body_sample. reflexivity. Qed.

Lemma tick_trace_eq (din : Z) (s : store) :
  tick_trace h din s
  = [ EvRead (GPIOA, DIN31_0) (u32 din);
      EvRead CTRCTL_A1 (s CTRCTL_A1);
      EvWrite CTRCTL_A1 (ctrctl_after h din (s CTRCTL_A1)) ].
Proof. unfold tick_trace, trace. rewrite loop_body_sample. reflexivity. Qed.

Lemma tick_ctrctl (din : Z) (s : store) :
  tick h din s CTRCTL_A1 = ctrctl_after h din (s CTRCTL_A1).
Proof. rewrite tick_eq. reflexivity. Qed.

(** A tick changes no register but the pin sample and [CTRCTL] of TIMA1. *)
Lemma tick_frame (din : Z) (s : store) (r : reg) :
  reg_eqb (GPIOA, DIN31_0) r = false ->
  reg_eqb CTRCTL_A1 r = false ->
  tick h din s r = s r.
Proof.
  intros Hd Hc. rewrite tick_eq. unfold sample, upd.
  rewrite Hc, Hd. reflexivity.
Qed.

Hypothesis h_ok : header_ok h = true.

Lemma EN_u32 : is_u32 EN = true.
Proof.
  revert h_ok. unfold header_ok. cbn [forallb].
  rewrite !andb_true_iff. tauto.
Qed.

Lemma EN_nonzero : EN <> 0.
Proof.
  revert h_ok. unfold header_ok.
  rewrite !andb_true_iff, !negb_true_iff, Z.eqb_neq. tauto.
Qed.

Lemma tick_enable_bit (din : Z) (s : store) :
  pwm_enable_bit h (tick h din s) = if sw1_pressed din then EN else 0.
Proof.
  unfold pwm_enable_bit. rewrite tick_ctrctl. unfold ctrctl_after.
  destruct (sw1_pressed din).
  - apply land_after_or, EN_u32.
  - apply land_after_andnot.
Qed.

Lemma tick_tone (din : Z) (s : store) :
  tone_state h (tick h din s) = tone_of_level (sw1_pressed din).
Proof.
  unfold tone_state. rewrite tick_enable_bit.
  destruct (sw1_pressed din); cbn [tone_of_level].
  - destruct (Z.eqb_spec EN 0) as [E | _]; [destruct (EN_nonzero E) | reflexivity].
  - reflexivity.
Qed.

End Lab5_properties.

(** ** The stubs *)

(** C10: for every argument and every register file, [SetTimerA1Period],
    [EnableTimerA1PWM] and [DisableTimerA1PWM] return, leave every register
    as it was and perform no bus access. *)
Theorem stubs_are_noops (period : Z) (s : store) :
  SetTimerA1Period period s = (tt, s, [])
  /\ EnableTimerA1PWM s = (tt, s, [])
  /\ DisableTimerA1PWM s = (tt, s, []).
Proof. repeat split. Qed.

(** ** The level-triggered mapping of the main loop *)

(** C2: whatever sample is read in an iteration, a 0 on bit 23 (SW1
    pressed) leaves the enable bit of the PWM timer set after the
    iteration, and a 1 leaves it cleared. *)
Theorem sw1_level_selects_tone (h : msp_header) (Hok : header_ok h = true)
    (din : Z) (s : store) :
  if Z.testbit din 23
  then pwm_enable_bit h (tick h din s) = 0
       /\ tone_state h (tick h din s) = Silent
  else pwm_enable_bit h (tick h din s) = GPTIMER_CTRCTL_EN_ENABLED h
       /\ pwm_enable_bit h (tick h din s) <> 0
       /\ tone_state h (tick h din s) = Playing.
Proof.
  rewrite (tick_tone h Hok), (tick_enable_bit h Hok). unfold sw1_pressed.
  destruct (Z.testbit din 23); cbn [negb tone_of_level].
  - split; reflexivity.
  - repeat split. apply (EN_nonzero h Hok).
Qed.

Lemma sw1_level_selects_tone_witness :
  header_ok mspm0_header = true
  /\ pwm_enable_bit mspm0_header (tick mspm0_header 0x07000000 loop_entry) = 1
  /\ tone_state mspm0_header (tick mspm0_header 0x07000000 loop_entry) = Playing.
Proof.
  split; [reflexivity |].
  pose proof (sw1_level_selects_tone mspm0_header eq_refl 0x07000000 loop_entry)
    as H.
  change (Z.testbit 0x07000000 23) with false in H.
  destruct H as (Hbit & _ & Htone). split; assumption.
Defined.

(** C5: every combination of the buttons in which SW1 is not pressed
    (bit 23 reads 1), whatever SW2, SW3 and SW4 read, ends the iteration
    with the PWM enable bit cleared. *)
Theorem sw1_released_is_silent (h : msp_header) (Hok : header_ok h = true)
    (din : Z) (s : store) (Hreleased : Z.testbit din 23 = true) :
  pwm_enable_bit h (tick h din s) = 0
  /\ tone_state h (tick h din s) = Silent.
Proof.
  rewrite (tick_tone h Hok), (tick_enable_bit h Hok). unfold sw1_pressed.
  rewrite Hreleased. split; reflexivity.
Qed.

Lemma sw1_released_is_silent_witness :
  header_ok mspm0_header = true
  /\ Z.testbit (button_sample false true true true 0) 23 = true
  /\ tone_state mspm0_header
       (tick mspm0_header (button_sample false true true true 0)
          (tick mspm0_header 0 loop_entry)) = Silent.
Proof.
  split; [reflexivity |]. split; [reflexivity |].
  apply (sw1_released_is_silent mspm0_header eq_refl
           (button_sample false true true true 0)
           (tick mspm0_header 0 loop_entry) eq_refl).
Defined.

(** C9: two iterations whose samples agree on bit 23 end with the same
    PWM enable state, whatever the other pins read and whatever the enable
    state was before. *)
Theorem tone_depends_only_on_sw1 (h : msp_header) (Hok : header_ok h = true)
    (din1 din2 : Z) (s1 s2 : store)
    (Hagree : Z.testbit din1 23 = Z.testbit din2 23) :
  pwm_enable_bit h (tick h din1 s1) = pwm_enable_bit h (tick h din2 s2)
  /\ tone_state h (tick h din1 s1) = tone_state h (tick h din2 s2).
Proof.
  rewrite !(tick_tone h Hok), !(tick_enable_bit h Hok). unfold sw1_pressed.
  rewrite Hagree. split; reflexivity.
Qed.

Lemma tone_depends_only_on_sw1_witness :
  header_ok mspm0_header = true
  /\ Z.testbit 0x07000000 23 = Z.testbit 0 23
  /\ tone_state mspm0_header (tick mspm0_header 0x07000000 loop_entry)
     = tone_state mspm0_header (tick mspm0_header 0 reset_store).
Proof.
  split; [reflexivity |]. split; [reflexivity |].
  apply (tone_depends_only_on_sw1 mspm0_header eq_refl 0x07000000 0
           loop_entry reset_store eq_refl).
Defined.

(** ** The PWM timer after [InitializeTimerA1_PWM] *)

(** Evaluates a straight-line sequence of register accesses down to the
    chain of [upd] it builds and looks a register up in it. *)
Ltac run_registers :=
  cbv [exec trace bind ret read write or_assign and_assign
       InitializeTimerA1_PWM InitializeTimerG0 InitializeGPIO main_setup
       SetTimerG0Delay EnableTimerG0 NVIC_EnableIRQ buzzer_on buzzer_off
       SetTimerA1Period EnableTimerA1PWM DisableTimerA1PWM
       delay_cycles POWER_STARTUP_DELAY
       pwm_load pwm_compare upd reg_eqb periph_eqb field_eqb fst snd andb].

Lemma init_pwm_load (h : msp_header) (s : store) :
  pwm_load (exec (InitializeTimerA1_PWM h) s) = 3999.
Proof. run_registers. reflexivity. Qed.

Lemma init_pwm_compare (h : msp_header) (s : store) :
  pwm_compare (exec (InitializeTimerA1_PWM h) s) = 2000.
Proof. run_registers. reflexivity. Qed.

Lemma init_pwm_clksel (h : msp_header) (s : store) :
  exec (InitializeTimerA1_PWM h) s (TIMA1, CLKSEL)
  = u32 (GPTIMER_CLKSEL_BUSCLK_SEL_ENABLE h).
Proof. run_registers. reflexivity. Qed.

Lemma init_pwm_clkdiv (h : msp_header) (s : store) :
  exec (InitializeTimerA1_PWM h) s (TIMA1, CLKDIV)
  = u32 (GPTIMER_CLKDIV_RATIO_DIV_BY_4 h).
Proof. run_registers. reflexivity. Qed.

Lemma init_pwm_ccact (h : msp_header) (s : store) :
  exec (InitializeTimerA1_PWM h) s (TIMA1, COUNTERREGS_CCACT_01 0)
  = u32 (Z.lor (GPTIMER_CCACT_01_ZACT_CCP_HIGH h)
           (GPTIMER_CCACT_01_CUACT_CCP_LOW h)).
Proof. run_registers. reflexivity. Qed.

Lemma init_pwm_ctrctl (h : msp_header) (s : store) :
  exists c,
    exec (InitializeTimerA1_PWM h) s (TIMA1, COUNTERREGS_CTRCTL)
    = u32 (Z.lor c (GPTIMER_CTRCTL_EN_ENABLED h)).
Proof. eexists. run_registers. reflexivity. Qed.

Lemma header_ok_facts (h : msp_header) :
  header_ok h = true ->
  is_u32 (GPTIMER_CLKSEL_LFCLK_SEL_ENABLE h) = true
  /\ is_u32 (GPTIMER_CLKSEL_BUSCLK_SEL_ENABLE h) = true
  /\ is_u32 (GPTIMER_CLKDIV_RATIO_DIV_BY_4 h) = true
  /\ is_u32 (GPTIMER_CTRCTL_REPEAT_REPEAT_1 h) = true
  /\ is_u32 (GPTIMER_CTRCTL_EN_ENABLED h) = true
  /\ is_u32 (GPTIMER_CPU_INT_IMASK_Z_SET h) = true
  /\ is_u32 (GPTIMER_CCACT_01_ZACT_CCP_HIGH h) = true
  /\ is_u32 (GPTIMER_CCACT_01_CUACT_CCP_LOW h) = true
  /\ GPTIMER_CTRCTL_EN_ENABLED h <> 0
  /\ GPTIMER_CLKSEL_LFCLK_SEL_ENABLE h <> GPTIMER_CLKSEL_BUSCLK_SEL_ENABLE h.
Proof.
  unfold header_ok. cbn [forallb].
  rewrite !andb_true_iff, !negb_true_iff, !Z.eqb_neq. tauto.
Qed.

Lemma lor_u32 (a b : Z) :
  is_u32 a = true -> is_u32 b = true -> u32 (Z.lor a b) = Z.lor a b.
Proof.
  intros Ha Hb.
  rewrite <- (u32_small a Ha) at 2. rewrite <- (u32_small b Hb) at 2.
  bitwise i. by_cases_on_bits.
Qed.

(** C1, as the code has it: [InitializeTimerA1_PWM], the one place that
    writes the PWM period, stores 3999 in LOAD and then (LOAD + 1) / 2 =
    2000 in the duty compare register, half of the LOAD + 1 ticks of a
    period; [SetTimerA1Period] changes neither register, whatever period it
    is given. *)
Theorem duty_is_half_of_load_plus_one (h : msp_header) (s : store) (period : Z) :
  pwm_load (exec (InitializeTimerA1_PWM h) s) = 3999
  /\ pwm_compare (exec (InitializeTimerA1_PWM h) s)
     = (pwm_load (exec (InitializeTimerA1_PWM h) s) + 1) / 2
  /\ pwm_compare (exec (InitializeTimerA1_PWM h) s) = 2000
  /\ pwm_load (exec (SetTimerA1Period period) s) = pwm_load s
  /\ pwm_compare (exec (SetTimerA1Period period) s) = pwm_compare s.
Proof.
  rewrite init_pwm_load, init_pwm_compare. repeat split.
Qed.

(** C1 as stated fails: at the point the period 3999 is written the duty
    compare value is 2000, not 3999 / 2 = 1999; and after
    [SetTimerA1Period 3999] on the reset register file the compare value
    is still 0. *)
Lemma duty_is_not_half_of_load :
  pwm_load (exec (InitializeTimerA1_PWM mspm0_header) reset_store) = 3999
  /\ pwm_compare (exec (InitializeTimerA1_PWM mspm0_header) reset_store)
     <> pwm_load (exec (InitializeTimerA1_PWM mspm0_header) reset_store) / 2
  /\ pwm_compare (exec (InitializeTimerA1_PWM mspm0_header) reset_store) <> 1999
  /\ pwm_compare (exec (SetTimerA1Period 3999) reset_store) <> 3999 / 2.
Proof.
  rewrite init_pwm_load, init_pwm_compare.
  repeat split; intro H; discriminate H.
Qed.

(** C6, as the code has it: [InitializeTimerA1_PWM] selects BUSCLK
    (32 MHz) divided by 4, an 8 MHz timer clock, and writes the period
    3999 to LOAD, so the output frequency is 8,000,000 / (3999 + 1) =
    2000 Hz; the output is set high at zero and low at the compare value,
    which is 2000 = (period + 1) / 2, half of the period + 1 = 4000 ticks
    of a cycle (a 50% square wave), and the timer is left enabled. *)
Theorem init_pwm_is_2kHz_square_wave (h : msp_header) (Hok : header_ok h = true)
    (s : store) :
  exec (InitializeTimerA1_PWM h) s (TIMA1, CLKSEL)
    = GPTIMER_CLKSEL_BUSCLK_SEL_ENABLE h
  /\ exec (InitializeTimerA1_PWM h) s (TIMA1, CLKDIV)
    = GPTIMER_CLKDIV_RATIO_DIV_BY_4 h
  /\ pwm_clock_hz h (exec (InitializeTimerA1_PWM h) s) = Some 8000000
  /\ pwm_load (exec (InitializeTimerA1_PWM h) s) = 3999
  /\ pwm_frequency_hz h (exec (InitializeTimerA1_PWM h) s)
     = Some (8000000 / (3999 + 1))
  /\ pwm_frequency_hz h (exec (InitializeTimerA1_PWM h) s) = Some 2000
  /\ exec (InitializeTimerA1_PWM h) s (TIMA1, COUNTERREGS_CCACT_01 0)
     = Z.lor (GPTIMER_CCACT_01_ZACT_CCP_HIGH h) (GPTIMER_CCACT_01_CUACT_CCP_LOW h)
  /\ pwm_compare (exec (InitializeTimerA1_PWM h) s) = 2000
  /\ pwm_compare (exec (InitializeTimerA1_PWM h) s)
     = (pwm_load (exec (InitializeTimerA1_PWM h) s) + 1) / 2
  /\ 2 * pwm_compare (exec (InitializeTimerA1_PWM h) s)
     = pwm_load (exec (InitializeTimerA1_PWM h) s) + 1
  /\ tone_state h (exec (InitializeTimerA1_PWM h) s) = Playing.
Proof.
  destruct (header_ok_facts h Hok)
    as (_ & Hbus & Hdiv & _ & Hen & _ & Hz & Hcu & Hen0 & _).
  assert (Hclk : pwm_clock_hz h (exec (InitializeTimerA1_PWM h) s) = Some 8000000).
  { unfold pwm_clock_hz, clock_source_hz, clock_divider.
    rewrite init_pwm_clksel, init_pwm_clkdiv, !u32_small by assumption.
    rewrite !Z.eqb_refl. reflexivity. }
  assert (Hfreq : pwm_frequency_hz h (exec (InitializeTimerA1_PWM h) s) = Some 2000).
  { unfold pwm_frequency_hz. rewrite Hclk, init_pwm_load. reflexivity. }
  rewrite init_pwm_clksel, init_pwm_clkdiv, init_pwm_ccact, init_pwm_load,
    init_pwm_compare, Hfreq, lor_u32, !u32_small by assumption.
  repeat split; try assumption.
  unfold tone_state, pwm_enable_bit.
  destruct (init_pwm_ctrctl h s) as [c ->].
  rewrite land_after_or by assumption.
  destruct (Z.eqb_spec (GPTIMER_CTRCTL_EN_ENABLED h) 0); [contradiction | reflexivity].
Qed.

(** C6 as stated fails in its last part: with the period 3999 in LOAD
    and the output at 2000 Hz, the compare value is 2000, which is not
    half the period, 3999 / 2 = 1999. *)
Lemma compare_is_not_half_of_period :
  pwm_load (exec (InitializeTimerA1_PWM mspm0_header) loop_entry) = 3999
  /\ pwm_frequency_hz mspm0_header
       (exec (InitializeTimerA1_PWM mspm0_header) loop_entry) = Some 2000
  /\ pwm_compare (exec (InitializeTimerA1_PWM mspm0_header) loop_entry) = 2000
  /\ pwm_compare (exec (InitializeTimerA1_PWM mspm0_header) loop_entry)
     <> pwm_load (exec (InitializeTimerA1_PWM mspm0_header) loop_entry) / 2.
Proof.
  rewrite init_pwm_load, init_pwm_compare.
  repeat split; try (vm_compute; reflexivity).
  intro H. discriminate H.
Qed.

Lemma init_pwm_is_2kHz_square_wave_witness :
  header_ok mspm0_header = true
  /\ pwm_frequency_hz mspm0_header
       (exec (InitializeTimerA1_PWM mspm0_header) reset_store) = Some 2000.
Proof.
  split; [reflexivity |].
  apply (init_pwm_is_2kHz_square_wave mspm0_header eq_refl reset_store).
Defined.

(** ** Runs of the main loop *)

Lemma run_cons (h : msp_header) (din : Z) (rest : list Z) (s : store) :
  run h (din :: rest) s = run h rest (tick h din s).
Proof. reflexivity. Qed.

(** A run changes no register but the pin sample and [CTRCTL] of TIMA1. *)
Lemma run_frame (h : msp_header) (samples : list Z) (s : store) (r : reg) :
  reg_eqb (GPIOA, DIN31_0) r = false ->
  reg_eqb (TIMA1, COUNTERREGS_CTRCTL) r = false ->
  run h samples s r = s r.
Proof.
  intros Hd Hc. revert s.
  induction samples as [| din rest IH]; intros s.
  - reflexivity.
  - rewrite run_cons, IH. apply tick_frame; assumption.
Qed.

Lemma states_tones (h : msp_header) (Hok : header_ok h = true)
    (samples : list Z) (s : store) :
  map (tone_state h) (states h samples s)
  = map (fun din => tone_of_level (sw1_pressed din)) samples.
Proof.
  revert s. induction samples as [| din rest IH]; intros s; cbn [states map].
  - reflexivity.
  - rewrite (tick_tone h Hok), IH. reflexivity.
Qed.

Lemma map_constant {A B : Type} (f : A -> B) (b : B) (l : list A) :
  Forall (fun a => f a = b) l -> map f l = repeat b (length l).
Proof.
  induction 1 as [| a l Ha _ IH]; cbn.
  - reflexivity.
  - rewrite Ha, IH. reflexivity.
Qed.

Lemma run_tone_level (h : msp_header) (Hok : header_ok h = true)
    (level : bool) (samples : list Z) (s : store) :
  Forall (fun din => sw1_pressed din = level) samples ->
  samples <> [] ->
  tone_state h (run h samples s) = tone_of_level level.
Proof.
  intros Hlevel. revert s.
  induction Hlevel as [| din rest Hdin _ IH]; intros s Hne.
  - congruence.
  - rewrite run_cons. destruct rest as [| d' rest'].
    + cbn [run fold_left]. rewrite (tick_tone h Hok), Hdin. reflexivity.
    + apply IH. discriminate.
Qed.

(** C3, as the code has it: the loop does not debounce.  Along a run of
    ticks that all report the same raw SW1 level, the tone state is that
    level's tone from the first tick on: it takes the level at tick 1 and
    stays there at every later tick, so a run that is not empty ends in
    it. *)
Theorem tone_follows_raw_level (h : msp_header) (Hok : header_ok h = true)
    (level : bool) (samples : list Z) (s : store)
    (Hlevel : Forall (fun din => sw1_pressed din = level) samples)
    (Hticks : samples <> []) :
  map (tone_state h) (states h samples s)
  = repeat (tone_of_level level) (length samples)
  /\ tone_state h (run h samples s) = tone_of_level level.
Proof.
  assert (Htones : map (tone_state h) (states h samples s)
                   = repeat (tone_of_level level) (length samples)).
  { rewrite (states_tones h Hok).
    apply (map_constant (fun din => tone_of_level (sw1_pressed din))).
    apply (Forall_impl _ (P := fun din => sw1_pressed din = level));
      [| exact Hlevel].
    intros din ->. reflexivity. }
  split; [exact Htones |].
  apply (run_tone_level h Hok); assumption.
Qed.

Lemma tone_follows_raw_level_witness :
  header_ok mspm0_header = true
  /\ Forall (fun din => sw1_pressed din = true) [0x07000000; 0; 0x03000000]
  /\ [0x07000000; 0; 0x03000000] <> []
  /\ map (tone_state mspm0_header)
       (states mspm0_header [0x07000000; 0; 0x03000000] loop_entry)
     = [Playing; Playing; Playing].
Proof.
  assert (Hlevel : Forall (fun din => sw1_pressed din = true)
                     [0x07000000; 0; 0x03000000])
    by (repeat constructor).
  assert (Hticks : [0x07000000; 0; 0x03000000] <> []) by discriminate.
  split; [reflexivity |]. split; [exact Hlevel |]. split; [exact Hticks |].
  apply (tone_follows_raw_level mspm0_header eq_refl true
           [0x07000000; 0; 0x03000000] loop_entry Hlevel Hticks).
Defined.

(** C3 as stated fails for every N above 1: from the silent register file
    at loop entry, a single tick that reports SW1 pressed, a run shorter
    than N = 3, already turns the tone on. *)
Lemma one_pressed_tick_starts_tone :
  tone_state mspm0_header loop_entry = Silent
  /\ Forall (fun din => sw1_pressed din = true) [0x07000000]
  /\ Z.of_nat (length [0x07000000]) < 3
  /\ tone_state mspm0_header (run mspm0_header [0x07000000] loop_entry) = Playing
  /\ ~ debounced_over mspm0_header 3.
Proof.
  assert (Hlevel : Forall (fun din => sw1_pressed din = true) [0x07000000])
    by (repeat constructor).
  assert (Hlen : Z.of_nat (length [0x07000000]) < 3) by (cbn; lia).
  assert (Hlen' : (length [0x07000000%Z] < 3)%nat) by (cbn; lia).
  assert (Hs : tone_state mspm0_header loop_entry = Silent)
    by (vm_compute; reflexivity).
  assert (Hp : tone_state mspm0_header
                 (run mspm0_header [0x07000000] loop_entry) = Playing)
    by (vm_compute; reflexivity).
  repeat split; try assumption.
  intros Hdeb.
  specialize (Hdeb true [0x07000000] loop_entry Hlevel Hlen').
  rewrite Hs, Hp in Hdeb. discriminate Hdeb.
Qed.

(** ** Register writes per tick *)

Lemma tone_of_level_inj (a b : bool) :
  tone_of_level a = tone_of_level b -> a = b.
Proof. destruct a, b; cbn; congruence. Qed.

Lemma ctrctl_after_twice (h : msp_header) (d1 d2 c : Z) :
  sw1_pressed d2 = sw1_pressed d1 ->
  ctrctl_after h d2 (ctrctl_after h d1 c) = ctrctl_after h d1 c.
Proof.
  unfold ctrctl_after. intros ->.
  destruct (sw1_pressed d1); [apply or_twice | apply and_twice].
Qed.

(** C4, as the code has it: every tick performs exactly one write to a
    PWM timer register, the read-modify-write of [CTRCTL]; on the second
    of two consecutive ticks with the same tone state that write stores
    the word [CTRCTL] already holds, so no register of the timer changes. *)
Theorem unchanged_tone_rewrites_ctrctl (h : msp_header)
    (Hok : header_ok h = true) (d1 d2 : Z) (s : store)
    (Hsame : tone_state h (tick h d2 (tick h d1 s)) = tone_state h (tick h d1 s)) :
  writes_to TIMA1 (tick_trace h d2 (tick h d1 s))
  = [EvWrite (TIMA1, COUNTERREGS_CTRCTL) (tick h d1 s (TIMA1, COUNTERREGS_CTRCTL))]
  /\ length (writes_to TIMA1 (tick_trace h d1 s)) = 1%nat
  /\ (forall r, reg_eqb (GPIOA, DIN31_0) r = false ->
                tick h d2 (tick h d1 s) r = tick h d1 s r).
Proof.
  rewrite !(tick_tone h Hok) in Hsame. apply tone_of_level_inj in Hsame.
  rewrite !tick_trace_eq. cbn [writes_to filter is_write_to fst periph_eqb length].
  rewrite tick_ctrctl, (ctrctl_after_twice h d1 d2 _ Hsame).
  repeat split.
  intros r Hr. rewrite (tick_eq h d2). unfold upd at 1.
  destruct (reg_eqb (TIMA1, COUNTERREGS_CTRCTL) r) eqn:Hc.
  - rewrite tick_ctrctl, (ctrctl_after_twice h d1 d2 _ Hsame).
    rewrite (tick_eq h d1). unfold upd at 1. rewrite Hc. reflexivity.
  - unfold sample, upd at 1. rewrite Hr. reflexivity.
Qed.

Lemma unchanged_tone_rewrites_ctrctl_witness :
  header_ok mspm0_header = true
  /\ tone_state mspm0_header
       (tick mspm0_header 0 (tick mspm0_header 0x07000000 loop_entry))
     = tone_state mspm0_header (tick mspm0_header 0x07000000 loop_entry)
  /\ writes_to TIMA1
       (tick_trace mspm0_header 0 (tick mspm0_header 0x07000000 loop_entry))
     = [EvWrite (TIMA1, COUNTERREGS_CTRCTL)
          (tick mspm0_header 0x07000000 loop_entry (TIMA1, COUNTERREGS_CTRCTL))].
Proof.
  assert (Hsame : tone_state mspm0_header
                    (tick mspm0_header 0 (tick mspm0_header 0x07000000 loop_entry))
                  = tone_state mspm0_header
                      (tick mspm0_header 0x07000000 loop_entry))
    by (vm_compute; reflexivity).
  split; [reflexivity |]. split; [exact Hsame |].
  apply (unchanged_tone_rewrites_ctrctl mspm0_header eq_refl 0x07000000 0
           loop_entry Hsame).
Defined.

(** C4 as stated fails: with SW1 held over two consecutive ticks the tone
    state is Playing after both, and the second tick still writes
    [CTRCTL] of the PWM timer. *)
Lemma second_tick_still_writes :
  tone_state mspm0_header (tick mspm0_header 0x07000000 loop_entry) = Playing
  /\ tone_state mspm0_header
       (tick mspm0_header 0x07000000 (tick mspm0_header 0x07000000 loop_entry))
     = Playing
  /\ writes_to TIMA1
       (tick_trace mspm0_header 0x07000000
          (tick mspm0_header 0x07000000 loop_entry))
     = [EvWrite (TIMA1, COUNTERREGS_CTRCTL) 0x20000023]
  /\ writes_to TIMA1
       (tick_trace mspm0_header 0x07000000
          (tick mspm0_header 0x07000000 loop_entry)) <> [].
Proof.
  assert (Hw : writes_to TIMA1
                 (tick_trace mspm0_header 0x07000000
                    (tick mspm0_header 0x07000000 loop_entry))
               = [EvWrite (TIMA1, COUNTERREGS_CTRCTL) 0x20000023])
    by (vm_compute; reflexivity).
  repeat split; try (vm_compute; reflexivity).
  rewrite Hw. discriminate.
Qed.

(** ** Starting and stopping the buzzer *)

Lemma upd_twice (s : store) (r : reg) (v : Z) :
  same_regs (upd (upd s r v) r v) (upd s r v).
Proof. intros r'. unfold upd. destruct (reg_eqb r r'); reflexivity. Qed.

Lemma exec_buzzer_on (h : msp_header) (s : store) :
  exec (buzzer_on h) s
  = upd s (TIMA1, COUNTERREGS_CTRCTL)
      (u32 (Z.lor (s (TIMA1, COUNTERREGS_CTRCTL)) (GPTIMER_CTRCTL_EN_ENABLED h))).
Proof. reflexivity. Qed.

Lemma exec_buzzer_off (h : msp_header) (s : store) :
  exec (buzzer_off h) s
  = upd s (TIMA1, COUNTERREGS_CTRCTL)
      (u32 (Z.land (s (TIMA1, COUNTERREGS_CTRCTL))
              (not32 (GPTIMER_CTRCTL_EN_ENABLED h)))).
Proof. reflexivity. Qed.

Lemma exec_seq {A B : Type} (m : M A) (k : M B) (s : store) :
  exec (m ;; k) s = exec k (exec m s).
Proof.
  unfold exec, bind. destruct (m s) as [[a s1] t1]. cbn [fst snd].
  destruct (k s1) as [[b s2] t2]. reflexivity.
Qed.

Lemma buzzer_on_twice (h : msp_header) (s : store) :
  same_regs (exec (buzzer_on h ;; buzzer_on h) s) (exec (buzzer_on h) s).
Proof.
  rewrite exec_seq, !exec_buzzer_on.
  change (upd s (TIMA1, COUNTERREGS_CTRCTL) ?v (TIMA1, COUNTERREGS_CTRCTL))
    with v.
  rewrite or_twice. apply upd_twice.
Qed.

Lemma buzzer_off_twice (h : msp_header) (s : store) :
  same_regs (exec (buzzer_off h ;; buzzer_off h) s) (exec (buzzer_off h) s).
Proof.
  rewrite exec_seq, !exec_buzzer_off.
  change (upd s (TIMA1, COUNTERREGS_CTRCTL) ?v (TIMA1, COUNTERREGS_CTRCTL))
    with v.
  rewrite and_twice. apply upd_twice.
Qed.

(** C7, as the code has it: each of the four operations done twice leaves
    the registers as it does done once.  The statements of [main] that set
    and clear the enable bit leave the output active and inactive; the
    functions [EnableTimerA1PWM] and [DisableTimerA1PWM] are idempotent
    because they leave every register as it was. *)
Theorem enable_disable_idempotent (h : msp_header) (Hok : header_ok h = true)
    (s : store) :
  same_regs (exec (EnableTimerA1PWM ;; EnableTimerA1PWM) s) (exec EnableTimerA1PWM s)
  /\ same_regs (exec (DisableTimerA1PWM ;; DisableTimerA1PWM) s)
       (exec DisableTimerA1PWM s)
  /\ same_regs (exec (buzzer_on h ;; buzzer_on h) s) (exec (buzzer_on h) s)
  /\ same_regs (exec (buzzer_off h ;; buzzer_off h) s) (exec (buzzer_off h) s)
  /\ tone_state h (exec (buzzer_on h) s) = Playing
  /\ tone_state h (exec (buzzer_off h) s) = Silent
  /\ exec EnableTimerA1PWM s = s
  /\ exec DisableTimerA1PWM s = s.
Proof.
  destruct (header_ok_facts h Hok) as (_ & _ & _ & _ & Hen & _ & _ & _ & Hen0 & _).
  split; [intros r; reflexivity |].
  split; [intros r; reflexivity |].
  split; [apply buzzer_on_twice |].
  split; [apply buzzer_off_twice |].
  split; [| split; [| split; reflexivity]].
  - unfold tone_state, pwm_enable_bit. rewrite exec_buzzer_on.
    change (upd s (TIMA1, COUNTERREGS_CTRCTL) ?v (TIMA1, COUNTERREGS_CTRCTL))
      with v.
    rewrite land_after_or by assumption.
    destruct (Z.eqb_spec (GPTIMER_CTRCTL_EN_ENABLED h) 0);
      [contradiction | reflexivity].
  - unfold tone_state, pwm_enable_bit. rewrite exec_buzzer_off.
    change (upd s (TIMA1, COUNTERREGS_CTRCTL) ?v (TIMA1, COUNTERREGS_CTRCTL))
      with v.
    rewrite land_after_andnot. reflexivity.
Qed.

Lemma enable_disable_idempotent_witness :
  header_ok mspm0_header = true
  /\ tone_state mspm0_header (exec (buzzer_on mspm0_header) loop_entry) = Playing
  /\ tone_state mspm0_header (exec (buzzer_off mspm0_header) loop_entry) = Silent.
Proof.
  split; [reflexivity |].
  pose proof (enable_disable_idempotent mspm0_header eq_refl loop_entry) as H.
  destruct H as (_ & _ & _ & _ & Hon & Hoff & _).
  split; assumption.
Defined.

(** C7 as stated fails for the two functions: the register file at loop
    entry has the output inactive, and it is still inactive after
    [EnableTimerA1PWM], called once or twice; after
    [InitializeTimerA1_PWM] the output is active, and it is still active
    after [DisableTimerA1PWM], called once or twice. *)
Lemma enable_stub_leaves_output_inactive :
  tone_state mspm0_header loop_entry = Silent
  /\ tone_state mspm0_header (exec EnableTimerA1PWM loop_entry) = Silent
  /\ tone_state mspm0_header
       (exec (EnableTimerA1PWM ;; EnableTimerA1PWM) loop_entry) = Silent
  /\ tone_state mspm0_header
       (exec (EnableTimerA1PWM ;; EnableTimerA1PWM) loop_entry) <> Playing
  /\ tone_state mspm0_header
       (exec (DisableTimerA1PWM ;; DisableTimerA1PWM)
          (exec (InitializeTimerA1_PWM mspm0_header) reset_store)) = Playing.
Proof.
  repeat split; try (vm_compute; reflexivity).
  vm_compute. discriminate.
Qed.

(** ** The tick timer *)

Lemma setup_g0_clksel (h : msp_header) (s : store) :
  exec (main_setup h) s (TIMG0, CLKSEL) = u32 (GPTIMER_CLKSEL_LFCLK_SEL_ENABLE h).
Proof. run_registers. reflexivity. Qed.

Lemma setup_g0_ctrctl (h : msp_header) (s : store) :
  exec (main_setup h) s (TIMG0, COUNTERREGS_CTRCTL)
  = u32 (Z.lor (u32 (GPTIMER_CTRCTL_REPEAT_REPEAT_1 h)) (GPTIMER_CTRCTL_EN_ENABLED h)).
Proof. run_registers. reflexivity. Qed.

Lemma setup_g0_imask (h : msp_header) (s : store) :
  exec (main_setup h) s (TIMG0, CPU_INT_IMASK)
  = u32 (Z.lor (s (TIMG0, CPU_INT_IMASK)) (GPTIMER_CPU_INT_IMASK_Z_SET h)).
Proof. run_registers. reflexivity. Qed.

Lemma setup_g0_load (h : msp_header) (s : store) :
  exec (main_setup h) s (TIMG0, COUNTERREGS_LOAD) = 20.
Proof. run_registers. reflexivity. Qed.

Lemma setup_nvic_iser (h : msp_header) (s : store) :
  exec (main_setup h) s (NVIC, ISER 0) = shl32 1 (Z.land (TIMG0_INT_IRQn h) 31).
Proof. run_registers. change (0 =? 0) with true. cbv iota. apply u32_idem. Qed.

Lemma land_or_keeps (r e : Z) :
  is_u32 r = true -> Z.land (u32 (Z.lor (u32 r) e)) r = r.
Proof.
  intros Hr. rewrite <- (u32_small r Hr) at 2 3.
  bitwise i. by_cases_on_bits.
Qed.

(** C8: when the main loop is entered, and after any number of its
    iterations, TIMG0 counts the low-frequency clock in repeat mode with
    its enable bit set, its zero event is unmasked and enabled in the
    NVIC, and its reload value is 20: 20 ticks of the 32 kHz clock, about
    0.6 ms (610 us at 32768 Hz, 625 us at 32000 Hz).  Neither the loop
    body nor the interrupt handler writes a TIMG0 register, so the timer
    keeps this configuration without being touched again. *)
Theorem tick_timer_runs_every_20_lfclk_ticks (h : msp_header)
    (Hok : header_ok h = true) (samples : list Z) (s : store) :
  let s' := run h samples (exec (main_setup h) s) in
  s' (TIMG0, CLKSEL) = GPTIMER_CLKSEL_LFCLK_SEL_ENABLE h
  /\ clock_source_hz h (s' (TIMG0, CLKSEL)) = Some LFCLK_HZ
  /\ Z.land (s' (TIMG0, COUNTERREGS_CTRCTL)) (GPTIMER_CTRCTL_REPEAT_REPEAT_1 h)
     = GPTIMER_CTRCTL_REPEAT_REPEAT_1 h
  /\ Z.land (s' (TIMG0, COUNTERREGS_CTRCTL)) (GPTIMER_CTRCTL_EN_ENABLED h)
     = GPTIMER_CTRCTL_EN_ENABLED h
  /\ Z.land (s' (TIMG0, CPU_INT_IMASK)) (GPTIMER_CPU_INT_IMASK_Z_SET h)
     = GPTIMER_CPU_INT_IMASK_Z_SET h
  /\ s' (NVIC, ISER 0) = shl32 1 (Z.land (TIMG0_INT_IRQn h) 31)
  /\ s' (TIMG0, COUNTERREGS_LOAD) = 20
  /\ interval_us (s' (TIMG0, COUNTERREGS_LOAD)) LFCLK_HZ = 610
  /\ interval_us (s' (TIMG0, COUNTERREGS_LOAD)) 32000 = 625
  /\ (forall din, writes_to TIMG0 (tick_trace h din s') = [])
  /\ writes_to TIMG0 (trace (TIMG0_IRQHandler h) s') = []
  /\ exec (TIMG0_IRQHandler h) s' = s'.
Proof.
  destruct (header_ok_facts h Hok)
    as (Hlf & _ & _ & Hrep & Hen & Hz & _ & _ & _ & Hne).
  intros s'. subst s'.
  rewrite !run_frame by reflexivity.
  rewrite setup_g0_clksel, setup_g0_ctrctl, setup_g0_imask, setup_g0_load,
    setup_nvic_iser, (u32_small _ Hlf).
  split; [reflexivity |].
  split.
  { unfold clock_source_hz.
    destruct (Z.eqb_spec (GPTIMER_CLKSEL_LFCLK_SEL_ENABLE h)
                (GPTIMER_CLKSEL_BUSCLK_SEL_ENABLE h)); [contradiction |].
    rewrite Z.eqb_refl. reflexivity. }
  split; [apply land_or_keeps; assumption |].
  split; [apply land_after_or; assumption |].
  split; [apply land_after_or; assumption |].
  split; [reflexivity |].
  split; [reflexivity |].
  split; [reflexivity |].
  split; [reflexivity |].
  split; [intros din; rewrite tick_trace_eq; reflexivity |].
  split.
  - unfold TIMG0_IRQHandler, trace, bind, read.
    destruct (_ =? _); reflexivity.
  - unfold TIMG0_IRQHandler, exec, bind, read.
    destruct (_ =? _); reflexivity.
Qed.

Lemma tick_timer_runs_every_20_lfclk_ticks_witness :
  header_ok mspm0_header = true
  /\ run mspm0_header [0x07000000; 0x07800000] loop_entry (TIMG0, COUNTERREGS_LOAD)
     = 20.
Proof.
  split; [reflexivity |].
  pose proof (tick_timer_runs_every_20_lfclk_ticks mspm0_header eq_refl
                [0x07000000; 0x07800000] reset_store) as H.
  cbv zeta in H.
  destruct H as (_ & _ & _ & _ & _ & _ & Hload & _).
  exact Hload.
Defined.

(** ** The delay loop *)

(** One pass of the loop, unfolded. *)
Lemma delay_loop_eq (scratch : Z) :
  delay_loop scratch
  = if snd (subs scratch 4) then 1 + delay_loop (fst (subs scratch 4)) else 1.
Proof.
  unfold delay_loop. rewrite Fix_eq.
  - unfold delay_loop_pass at 1.
    destruct (bool_dec (snd (subs scratch 4)) true) as [E | E].
    + rewrite E. reflexivity.
    + apply not_true_is_false in E. rewrite E. reflexivity.
  - intros x f g Hfg. unfold delay_loop_pass.
    destruct (bool_dec (snd (subs x 4)) true); [rewrite Hfg |]; reflexivity.
Qed.

Lemma delay_loop_passes (scratch : Z) : delay_loop scratch = u32 scratch / 4 + 1.
Proof.
  induction scratch as [scratch IH]
    using (well_founded_induction (well_founded_ltof Z delay_measure)).
  rewrite delay_loop_eq.
  pose proof (u32_range scratch) as Hr.
  destruct (snd (subs scratch 4)) eqn:carry.
  - rewrite (IH _ (delay_loop_decreases scratch carry)).
    unfold subs in *. cbn [fst snd] in *. apply Z.leb_le in carry.
    rewrite !(u32_small (u32 scratch - 4)) by (apply is_u32_spec; lia).
    replace (u32 scratch) with ((u32 scratch - 4) + 1 * 4) at 2 by lia.
    rewrite Z.div_add by lia. lia.
  - unfold subs in carry. cbn [snd] in carry. apply Z.leb_gt in carry.
    rewrite Z.div_small by lia. reflexivity.
Qed.

Lemma u32_sub_u32 (a b : Z) : u32 (u32 a - b) = u32 (a - b).
Proof. unfold u32. apply Zminus_mod_idemp_l. Qed.

Lemma delay_cycles_passes_formula (cycles : Z) :
  delay_cycles_passes cycles = u32 (cycles - 2) / 4 + 1.
Proof.
  unfold delay_cycles_passes, subs. cbn [fst].
  rewrite delay_loop_passes, u32_idem, u32_sub_u32. reflexivity.
Qed.

Lemma delay_cycles_passes_bounds (cycles : Z) :
  1 <= delay_cycles_passes cycles <= 2 ^ 30.
Proof.
  rewrite delay_cycles_passes_formula.
  pose proof (u32_range (cycles - 2)) as Hr.
  assert (0 <= u32 (cycles - 2) / 4 < 2 ^ 30).
  { split; [apply Z.div_pos; lia |].
    apply Z.div_lt_upper_bound; [lia |]. change (4 * 2 ^ 30) with (2 ^ 32). lia. }
  lia.
Qed.

(** X1: [delay_cycles] returns for every argument: the loop is passed
    through ((cycles - 2) mod 2^32) / 4 + 1 times, at least once and at
    most 2^30 times. *)
Theorem delay_cycles_passes_count (cycles : Z) :
  delay_cycles_passes cycles = u32 (cycles - 2) / 4 + 1
  /\ 1 <= delay_cycles_passes cycles <= 2 ^ 30.
Proof.
  split; [apply delay_cycles_passes_formula | apply delay_cycles_passes_bounds].
Qed.

(** X2: for a request of 2 to 2^32 - 1 cycles, four cycles per pass of
    the loop cover the request less the two cycles of call overhead that
    the first [SUBS] deducts, and overshoot it by at most two. *)
Theorem delay_cycles_covers_request (cycles : Z)
    (Hrange : 2 <= cycles < 2 ^ 32) :
  cycles - 2 < 4 * delay_cycles_passes cycles <= cycles + 2.
Proof.
  rewrite delay_cycles_passes_formula.
  rewrite (u32_small (cycles - 2)) by (apply is_u32_spec; lia).
  pose proof (Z.div_mod (cycles - 2) 4 ltac:(lia)) as Hd.
  pose proof (Z.mod_pos_bound (cycles - 2) 4 ltac:(lia)) as Hm.
  lia.
Qed.

Lemma delay_cycles_covers_request_witness :
  2 <= POWER_STARTUP_DELAY < 2 ^ 32
  /\ POWER_STARTUP_DELAY - 2 < 4 * delay_cycles_passes POWER_STARTUP_DELAY
     <= POWER_STARTUP_DELAY + 2.
Proof.
  assert (H : 2 <= POWER_STARTUP_DELAY < 2 ^ 32) by (unfold POWER_STARTUP_DELAY; lia).
  split; [exact H |].
  apply (delay_cycles_covers_request POWER_STARTUP_DELAY H).
Defined.

(** X3: a request of zero cycles wraps around in the first [SUBS] and
    gives the longest delay there is: 2^30 passes, which no argument
    exceeds. *)
Theorem delay_cycles_zero_is_longest (cycles : Z) :
  delay_cycles_passes 0 = 2 ^ 30
  /\ delay_cycles_passes cycles <= delay_cycles_passes 0.
Proof.
  assert (E : delay_cycles_passes 0 = 2 ^ 30)
    by (rewrite delay_cycles_passes_formula; reflexivity).
  split; [exact E |]. rewrite E.
  apply (delay_cycles_passes_bounds cycles).
Qed.

(** ** Pin configuration *)

Lemma is_u32_lor (a b : Z) :
  is_u32 a = true -> is_u32 b = true -> is_u32 (Z.lor a b) = true.
Proof.
  intros Ha Hb. rewrite <- (lor_u32 a b Ha Hb). apply is_u32_u32.
Qed.

Lemma gpio_header_ok_facts (h : msp_header) :
  gpio_header_ok h = true ->
  (IOMUX_PINCM37 h <> IOMUX_PINCM53 h /\ IOMUX_PINCM37 h <> IOMUX_PINCM54 h
   /\ IOMUX_PINCM37 h <> IOMUX_PINCM55 h /\ IOMUX_PINCM37 h <> IOMUX_PINCM59 h
   /\ IOMUX_PINCM53 h <> IOMUX_PINCM54 h /\ IOMUX_PINCM53 h <> IOMUX_PINCM55 h
   /\ IOMUX_PINCM53 h <> IOMUX_PINCM59 h /\ IOMUX_PINCM54 h <> IOMUX_PINCM55 h
   /\ IOMUX_PINCM54 h <> IOMUX_PINCM59 h /\ IOMUX_PINCM55 h <> IOMUX_PINCM59 h)
  /\ is_u32 (IOMUX_PINCM_PC_CONNECTED h) = true
  /\ is_u32 (IOMUX_PINCM37_PF_TIMA1_CCP0 h) = true
  /\ is_u32 (IOMUX_PINCM_INENA_ENABLE h) = true
  /\ is_u32 (IOMUX_PINCM_PIPU_ENABLE h) = true
  /\ is_u32 (input_configuration h) = true.
Proof.
  unfold gpio_header_ok, button_pins, input_configuration.
  cbn [all_distinct existsb forallb].
  rewrite !andb_true_iff, !negb_true_iff, !orb_false_iff, !Z.eqb_neq.
  intros H. decompose [and] H. clear H.
  repeat split; try assumption.
  repeat (apply is_u32_lor; [assumption || reflexivity |]). assumption.
Qed.

(** The configuration word of the button pins has the bits of each macro
    it is or-ed from. *)
Lemma input_configuration_bits (h : msp_header) :
  Z.land (input_configuration h) (IOMUX_PINCM_PC_CONNECTED h)
    = IOMUX_PINCM_PC_CONNECTED h
  /\ Z.land (input_configuration h) (IOMUX_PINCM_INENA_ENABLE h)
    = IOMUX_PINCM_INENA_ENABLE h
  /\ Z.land (input_configuration h) (IOMUX_PINCM_PIPU_ENABLE h)
    = IOMUX_PINCM_PIPU_ENABLE h
  /\ Z.land (input_configuration h) 1 = 1.
Proof.
  unfold input_configuration.
  repeat split; apply Z.bits_inj'; intros i Hi;
    rewrite ?Z.land_spec, ?Z.lor_spec;
    repeat match goal with
           | |- context [Z.testbit ?a i] => destruct (Z.testbit a i)
           end; reflexivity.
Qed.

(** X4: with five different pin indices, [InitializeGPIO] leaves the PWM
    pin connected to TIMA1 channel 0 and gives the four button pins one and
    the same configuration, in which the pin is connected, its input
    buffer and pull-up are enabled and the GPIO function is selected. *)
Theorem gpio_pins_configured (h : msp_header) (Hok : gpio_header_ok h = true)
    (s : store) (pin : Z) (Hpin : In pin (button_pins h)) :
  exec (InitializeGPIO h) s (IOMUX, SECCFG_PINCM (IOMUX_PINCM37 h))
  = Z.lor (IOMUX_PINCM_PC_CONNECTED h) (IOMUX_PINCM37_PF_TIMA1_CCP0 h)
  /\ exec (InitializeGPIO h) s (IOMUX, SECCFG_PINCM pin) = input_configuration h
  /\ Z.land (exec (InitializeGPIO h) s (IOMUX, SECCFG_PINCM pin))
       (IOMUX_PINCM_PC_CONNECTED h) = IOMUX_PINCM_PC_CONNECTED h
  /\ Z.land (exec (InitializeGPIO h) s (IOMUX, SECCFG_PINCM pin))
       (IOMUX_PINCM_INENA_ENABLE h) = IOMUX_PINCM_INENA_ENABLE h
  /\ Z.land (exec (InitializeGPIO h) s (IOMUX, SECCFG_PINCM pin))
       (IOMUX_PINCM_PIPU_ENABLE h) = IOMUX_PINCM_PIPU_ENABLE h
  /\ Z.land (exec (InitializeGPIO h) s (IOMUX, SECCFG_PINCM pin)) 1 = 1.
Proof.
  destruct (gpio_header_ok_facts h Hok)
    as (Hd & Hpc & Hpf & Hin & Hpu & Hcfg).
  decompose [and] Hd. clear Hd.
  assert (Hpwm : exec (InitializeGPIO h) s (IOMUX, SECCFG_PINCM (IOMUX_PINCM37 h))
                 = Z.lor (IOMUX_PINCM_PC_CONNECTED h) (IOMUX_PINCM37_PF_TIMA1_CCP0 h)).
  { run_registers.
    repeat match goal with
           | |- context [?a =? ?b] =>
               destruct (Z.eqb_spec a b); [congruence |]
           end.
    rewrite Z.eqb_refl. apply lor_u32; assumption. }
  assert (Hbtn : exec (InitializeGPIO h) s (IOMUX, SECCFG_PINCM pin)
                 = input_configuration h).
  { unfold button_pins in Hpin. cbn [In] in Hpin.
    destruct Hpin as [<- | [<- | [<- | [<- | []]]]]; run_registers;
      fold (input_configuration h);
      rewrite ?Z.eqb_refl;
      repeat match goal with
             | |- context [?a =? ?b] =>
                 destruct (Z.eqb_spec a b); [congruence |]
             end;
      rewrite ?Z.eqb_refl; apply u32_small; assumption. }
  rewrite Hpwm, Hbtn.
  destruct (input_configuration_bits h) as (B1 & B2 & B3 & B4).
  repeat split; assumption.
Qed.

Lemma gpio_pins_configured_witness :
  gpio_header_ok mspm0_header = true
  /\ In 58 (button_pins mspm0_header)
  /\ exec (InitializeGPIO mspm0_header) reset_store (IOMUX, SECCFG_PINCM 58)
     = input_configuration mspm0_header.
Proof.
  assert (Hpin : In 58 (button_pins mspm0_header)) by (cbn; tauto).
  split; [reflexivity |]. split; [exact Hpin |].
  apply (gpio_pins_configured mspm0_header eq_refl reset_store 58 Hpin).
Defined.

(** X5: [InitializeGPIO] performs seven bus accesses, all of them writes
    to GPIOA or to the IOMUX; it leaves every register of the two timers
    and of the NVIC, and the pin data register, as they were. *)
Theorem gpio_init_touches_gpio_and_iomux_only (h : msp_header) (s : store)
    (f : field) :
  exec (InitializeGPIO h) s (TIMG0, f) = s (TIMG0, f)
  /\ exec (InitializeGPIO h) s (TIMA1, f) = s (TIMA1, f)
  /\ exec (InitializeGPIO h) s (NVIC, f) = s (NVIC, f)
  /\ exec (InitializeGPIO h) s (GPIOA, DIN31_0) = s (GPIOA, DIN31_0)
  /\ length (trace (InitializeGPIO h) s) = 7%nat
  /\ forallb (fun e => is_write_to GPIOA e || is_write_to IOMUX e)
       (trace (InitializeGPIO h) s) = true.
Proof.
  repeat split; run_registers; reflexivity.
Qed.

(** ** The tick timer's functions *)

Lemma u32_u16 (z : Z) : u32 (u16 z) = u16 z.
Proof.
  apply u32_small, is_u32_spec. unfold u16.
  pose proof (Z.mod_pos_bound z (2 ^ 16) ltac:(lia)). lia.
Qed.

(** X6: [SetTimerG0Delay] takes its argument modulo 2^16, the width of
    its [uint16_t] parameter: LOAD receives [delay mod 65536], so adding a
    multiple of 65536 to the delay changes nothing; no other register is
    written, in particular the timer is not started. *)
Theorem timer_g0_delay_wraps_at_16_bits (delay k : Z) (s : store) (r : reg) :
  exec (SetTimerG0Delay delay) s r
  = (if reg_eqb (TIMG0, COUNTERREGS_LOAD) r then delay mod 2 ^ 16 else s r)
  /\ 0 <= exec (SetTimerG0Delay delay) s (TIMG0, COUNTERREGS_LOAD) < 2 ^ 16
  /\ exec (SetTimerG0Delay (delay + k * 2 ^ 16)) s r
     = exec (SetTimerG0Delay delay) s r
  /\ trace (SetTimerG0Delay delay) s
     = [EvWrite (TIMG0, COUNTERREGS_LOAD) (delay mod 2 ^ 16)].
Proof.
  assert (Hexec : forall d r',
             exec (SetTimerG0Delay d) s r'
             = if reg_eqb (TIMG0, COUNTERREGS_LOAD) r' then d mod 2 ^ 16 else s r').
  { intros d r'. unfold exec, SetTimerG0Delay, write, upd. cbn [fst snd].
    rewrite u32_u16. reflexivity. }
  split; [apply Hexec |].
  split.
  { rewrite Hexec. change (reg_eqb _ _) with true. cbv iota.
    apply Z.mod_pos_bound. lia. }
  split.
  { rewrite !Hexec, Z.mod_add by lia. reflexivity. }
  unfold trace, SetTimerG0Delay, write. cbn [snd].
  rewrite u32_u16. reflexivity.
Qed.





(** X9: [EnableTimerG0] sets the enable bit of [CTRCTL] and keeps every
    bit that was set, so the repeat mode chosen by [InitializeTimerG0]
    survives it; LOAD is not touched. *)
Theorem timer_g0_enable_keeps_mode (h : msp_header) (s : store) (i : Z)
    (Hen : is_u32 (GPTIMER_CTRCTL_EN_ENABLED h) = true)
    (Hi : 0 <= i < 32)
    (Hset : Z.testbit (s (TIMG0, COUNTERREGS_CTRCTL)) i = true) :
  Z.testbit (exec (EnableTimerG0 h) s (TIMG0, COUNTERREGS_CTRCTL)) i = true
  /\ Z.land (exec (EnableTimerG0 h) s (TIMG0, COUNTERREGS_CTRCTL))
       (GPTIMER_CTRCTL_EN_ENABLED h) = GPTIMER_CTRCTL_EN_ENABLED h
  /\ exec (EnableTimerG0 h) s (TIMG0, COUNTERREGS_LOAD)
     = s (TIMG0, COUNTERREGS_LOAD).
Proof.
  split; [| split].
  - run_registers. rewrite u32_testbit, Z.lor_spec, Hset.
    destruct (Z.ltb_spec i 32); [reflexivity | lia].
  - run_registers. apply land_after_or. exact Hen.
  - run_registers. reflexivity.
Qed.

Lemma timer_g0_enable_keeps_mode_witness :
  is_u32 (GPTIMER_CTRCTL_EN_ENABLED mspm0_header) = true
  /\ 0 <= 1 < 32
  /\ Z.testbit
       (exec (InitializeTimerG0 mspm0_header) reset_store
          (TIMG0, COUNTERREGS_CTRCTL)) 1 = true
  /\ Z.testbit
       (exec (EnableTimerG0 mspm0_header)
          (exec (InitializeTimerG0 mspm0_header) reset_store)
          (TIMG0, COUNTERREGS_CTRCTL)) 1 = true.
Proof.
  assert (Hi : 0 <= 1 < 32) by lia.
  assert (Hset : Z.testbit
                   (exec (InitializeTimerG0 mspm0_header) reset_store
                      (TIMG0, COUNTERREGS_CTRCTL)) 1 = true)
    by (vm_compute; reflexivity).
  split; [reflexivity |]. split; [exact Hi |]. split; [exact Hset |].
  apply (timer_g0_enable_keeps_mode mspm0_header
           (exec (InitializeTimerG0 mspm0_header) reset_store) 1 eq_refl Hi Hset).
Defined.

(** ** More on [InitializeTimerA1_PWM] *)

(** X10: [InitializeTimerA1_PWM] overwrites the timer: each of the ten
    TIMA1 registers it assigns ends with a value that does not depend on
    the register file it started from, and running it a second time
    changes nothing. *)
Theorem pwm_init_overwrites_timer (h : msp_header) (s1 s2 : store) (f : field)
    (Hf : In f pwm_init_fields) :
  exec (InitializeTimerA1_PWM h) s1 (TIMA1, f)
  = exec (InitializeTimerA1_PWM h) s2 (TIMA1, f)
  /\ same_regs (exec (InitializeTimerA1_PWM h ;; InitializeTimerA1_PWM h) s1)
       (exec (InitializeTimerA1_PWM h) s1).
Proof.
  split.
  - unfold pwm_init_fields in Hf. cbn [In] in Hf.
    repeat (destruct Hf as [<- | Hf]; [run_registers; reflexivity |]).
    destruct Hf.
  - intros [p g]. destruct p;
      try (run_registers; reflexivity).
    destruct g; run_registers; try reflexivity;
      destruct (0 =? i); reflexivity.
Qed.

Lemma pwm_init_overwrites_timer_witness :
  In COUNTERREGS_CTRCTL pwm_init_fields
  /\ exec (InitializeTimerA1_PWM mspm0_header) reset_store
       (TIMA1, COUNTERREGS_CTRCTL)
     = exec (InitializeTimerA1_PWM mspm0_header) loop_entry
         (TIMA1, COUNTERREGS_CTRCTL).
Proof.
  assert (Hf : In COUNTERREGS_CTRCTL pwm_init_fields) by (cbn; tauto).
  split; [exact Hf |].
  apply (pwm_init_overwrites_timer mspm0_header reset_store loop_entry
           COUNTERREGS_CTRCTL Hf).
Defined.


Lemma land_u32_disjoint (m e : Z) : Z.land m e = 0 -> Z.land (u32 m) e = 0.
Proof.
  intros H. apply Z.bits_inj'. intros i Hi.
  assert (Hb : Z.testbit (Z.land m e) i = false)
    by (rewrite H; apply Z.bits_0).
  rewrite Z.land_spec in Hb.
  rewrite Z.land_spec, u32_testbit, Z.bits_0.
  destruct (i <? 32); cbn [andb]; [exact Hb | reflexivity].
Qed.

(** X12: [InitializeTimerA1_PWM] starts the timer in its very last bus
    access: when the mode word does not overlap the enable bit, the one
    earlier write to [CTRCTL] has the enable bit clear, the period 3999
    and the compare value 2000 are written before the timer runs, and
    the last access is the write that sets the enable bit. *)
Theorem pwm_init_enables_timer_last (h : msp_header) (s : store)
    (Hen : is_u32 (GPTIMER_CTRCTL_EN_ENABLED h) = true)
    (Hmode : Z.land (pwm_mode_word h) (GPTIMER_CTRCTL_EN_ENABLED h) = 0) :
  exists (before : list event) (v : Z),
    trace (InitializeTimerA1_PWM h) s
    = before ++ [EvWrite (TIMA1, COUNTERREGS_CTRCTL) v]
    /\ Z.land v (GPTIMER_CTRCTL_EN_ENABLED h) = GPTIMER_CTRCTL_EN_ENABLED h
    /\ In (EvWrite (TIMA1, COUNTERREGS_LOAD) 3999) before
    /\ In (EvWrite (TIMA1, COUNTERREGS_CC_01 0) 2000) before
    /\ (forall v', In (EvWrite (TIMA1, COUNTERREGS_CTRCTL) v') before ->
                   Z.land v' (GPTIMER_CTRCTL_EN_ENABLED h) = 0).
Proof.
  exists (removelast (trace (InitializeTimerA1_PWM h) s)).
  exists (u32 (Z.lor (u32 (pwm_mode_word h)) (GPTIMER_CTRCTL_EN_ENABLED h))).
  split; [run_registers; reflexivity |].
  split; [apply land_after_or; exact Hen |].
  split; [run_registers; cbn; tauto |].
  split; [run_registers; cbn; tauto |].
  intros v' Hin. revert Hin. run_registers. cbn [app removelast In].
  intros Hin.
  repeat (destruct Hin as [Hin | Hin]; [try discriminate Hin |]);
    try contradiction.
  injection Hin as <-. apply land_u32_disjoint. exact Hmode.
Qed.

Lemma pwm_init_enables_timer_last_witness :
  is_u32 (GPTIMER_CTRCTL_EN_ENABLED mspm0_header) = true
  /\ Z.land (pwm_mode_word mspm0_header) (GPTIMER_CTRCTL_EN_ENABLED mspm0_header) = 0
  /\ exists (before : list event) (v : Z),
       trace (InitializeTimerA1_PWM mspm0_header) reset_store
       = before ++ [EvWrite (TIMA1, COUNTERREGS_CTRCTL) v]
       /\ Z.land v (GPTIMER_CTRCTL_EN_ENABLED mspm0_header)
          = GPTIMER_CTRCTL_EN_ENABLED mspm0_header.
Proof.
  split; [reflexivity |]. split; [reflexivity |].
  destruct (pwm_init_enables_timer_last mspm0_header reset_store eq_refl eq_refl)
    as (before & v & Ht & Hv & _).
  exists before, v. split; assumption.
Defined.

(** ** [main] as a whole *)

Lemma run_app (h : msp_header) (a b : list Z) (s : store) :
  run h (a ++ b) s = run h b (run h a s).
Proof. unfold run. apply fold_left_app. Qed.

Lemma setup_pwm_load (h : msp_header) (s : store) :
  pwm_load (exec (main_setup h) s) = 3999.
Proof. run_registers. reflexivity. Qed.

Lemma setup_pwm_compare (h : msp_header) (s : store) :
  pwm_compare (exec (main_setup h) s) = 2000.
Proof. run_registers. reflexivity. Qed.

Lemma setup_pwm_clock (h : msp_header) (s : store) :
  exec (main_setup h) s (TIMA1, CLKSEL) = u32 (GPTIMER_CLKSEL_BUSCLK_SEL_ENABLE h)
  /\ exec (main_setup h) s (TIMA1, CLKDIV) = u32 (GPTIMER_CLKDIV_RATIO_DIV_BY_4 h).
Proof. split; run_registers; reflexivity. Qed.

Lemma setup_pwm_ctrctl (h : msp_header) (s : store) :
  exists c,
    exec (main_setup h) s (TIMA1, COUNTERREGS_CTRCTL)
    = u32 (Z.land c (not32 (GPTIMER_CTRCTL_EN_ENABLED h))).
Proof. eexists. run_registers. reflexivity. Qed.

Lemma beep_pwm_ctrctl (h : msp_header) (s : store) :
  exists c,
    exec (InitializeGPIO h ;; InitializeTimerG0 h ;; InitializeTimerA1_PWM h ;;
          delay_cycles 1600000) s (TIMA1, COUNTERREGS_CTRCTL)
    = u32 (Z.lor c (GPTIMER_CTRCTL_EN_ENABLED h)).
Proof. eexists. run_registers. reflexivity. Qed.

(** X13: from any register file, [main] sounds the buzzer while it waits
    in [delay_cycles(1600000)] (400000 passes of the delay loop) and
    reaches the loop with the buzzer off and the PWM timer still set to
    period 3999, compare 2000, that is 2000 Hz. *)
Theorem main_beeps_then_enters_loop_silent (h : msp_header)
    (Hok : header_ok h = true) (s : store) :
  tone_state h
    (exec (InitializeGPIO h ;; InitializeTimerG0 h ;; InitializeTimerA1_PWM h ;;
           delay_cycles 1600000) s) = Playing
  /\ delay_cycles_passes 1600000 = 400000
  /\ tone_state h (exec (main_setup h) s) = Silent
  /\ pwm_load (exec (main_setup h) s) = 3999
  /\ pwm_compare (exec (main_setup h) s) = 2000
  /\ pwm_frequency_hz h (exec (main_setup h) s) = Some 2000.
Proof.
  destruct (header_ok_facts h Hok)
    as (_ & Hbus & Hdiv & _ & Hen & _ & _ & _ & Hen0 & _).
  split.
  { unfold tone_state, pwm_enable_bit.
    destruct (beep_pwm_ctrctl h s) as [c ->].
    rewrite land_after_or by assumption.
    destruct (Z.eqb_spec (GPTIMER_CTRCTL_EN_ENABLED h) 0);
      [contradiction | reflexivity]. }
  split; [rewrite delay_cycles_passes_formula; reflexivity |].
  split.
  { unfold tone_state, pwm_enable_bit.
    destruct (setup_pwm_ctrctl h s) as [c ->].
    rewrite land_after_andnot. reflexivity. }
  split; [apply setup_pwm_load |].
  split; [apply setup_pwm_compare |].
  unfold pwm_frequency_hz, pwm_clock_hz, clock_source_hz, clock_divider.
  destruct (setup_pwm_clock h s) as [-> ->].
  rewrite setup_pwm_load, !u32_small, !Z.eqb_refl by assumption.
  reflexivity.
Qed.

Lemma main_beeps_then_enters_loop_silent_witness :
  header_ok mspm0_header = true
  /\ tone_state mspm0_header (exec (main_setup mspm0_header) reset_store) = Silent.
Proof.
  split; [reflexivity |].
  apply (main_beeps_then_enters_loop_silent mspm0_header eq_refl reset_store).
Defined.

(** X14: the main loop never changes the pitch: after any number of
    ticks, with any samples, the period register, the compare register and
    the clock selection of the PWM timer are what they were, and so is the
    output frequency. *)
Theorem loop_never_changes_pitch (h : msp_header) (samples : list Z) (s : store) :
  pwm_load (run h samples s) = pwm_load s
  /\ pwm_compare (run h samples s) = pwm_compare s
  /\ pwm_clock_hz h (run h samples s) = pwm_clock_hz h s
  /\ pwm_frequency_hz h (run h samples s) = pwm_frequency_hz h s.
Proof.
  unfold pwm_frequency_hz, pwm_clock_hz, pwm_load, pwm_compare.
  rewrite !run_frame by reflexivity. repeat split.
Qed.

(** X15: the loop keeps no history: after a run that is not empty the
    tone is the one the last sample selects, whatever came before, and the
    tones after the successive ticks are those the successive samples
    select. *)
Theorem tone_after_run_is_last_sample (h : msp_header)
    (Hok : header_ok h = true) (samples : list Z) (din : Z) (s : store) :
  tone_state h (run h (samples ++ [din]) s) = tone_of_level (sw1_pressed din)
  /\ map (tone_state h) (states h (samples ++ [din]) s)
     = map (fun d => tone_of_level (sw1_pressed d)) (samples ++ [din]).
Proof.
  split.
  - rewrite run_app. cbn [run fold_left]. apply (tick_tone h Hok).
  - apply (states_tones h Hok).
Qed.

Lemma tone_after_run_is_last_sample_witness :
  header_ok mspm0_header = true
  /\ tone_state mspm0_header
       (run mspm0_header ([0; 0x07800000; 0] ++ [0x07800000]) loop_entry)
     = Silent.
Proof.
  split; [reflexivity |].
  apply (tone_after_run_is_last_sample mspm0_header eq_refl
           [0; 0x07800000; 0] 0x07800000 loop_entry).
Defined.

Lemma tick_keeps_other_bits (h : msp_header) (din : Z) (s : store) (i : Z) :
  0 <= i < 32 ->
  Z.testbit (GPTIMER_CTRCTL_EN_ENABLED h) i = false ->
  Z.testbit (tick h din s (TIMA1, COUNTERREGS_CTRCTL)) i
  = Z.testbit (s (TIMA1, COUNTERREGS_CTRCTL)) i.
Proof.
  intros Hi Hout. rewrite tick_ctrctl. unfold ctrctl_after.
  assert (Hlt : (i <? 32) = true) by (apply Z.ltb_lt; lia).
  destruct (sw1_pressed din).
  - rewrite u32_testbit, Z.lor_spec, Hout, Hlt, orb_false_r. reflexivity.
  - rewrite u32_testbit, Z.land_spec, not32_testbit, Hout, Hlt by lia.
    cbn [negb andb]. rewrite andb_true_r. reflexivity.
Qed.

(** X16: the loop changes nothing in [CTRCTL] of the PWM timer but the
    enable bit: every bit of the low 32 outside the enable mask has after
    any run the value it had before, so the mode set by
    [InitializeTimerA1_PWM] is kept. *)
Theorem loop_keeps_timer_mode (h : msp_header) (samples : list Z) (s : store)
    (i : Z) (Hi : 0 <= i < 32)
    (Hout : Z.testbit (GPTIMER_CTRCTL_EN_ENABLED h) i = false) :
  Z.testbit (run h samples s (TIMA1, COUNTERREGS_CTRCTL)) i
  = Z.testbit (s (TIMA1, COUNTERREGS_CTRCTL)) i.
Proof.
  revert s. induction samples as [| din rest IH]; intros s.
  - reflexivity.
  - rewrite run_cons, IH. apply tick_keeps_other_bits; assumption.
Qed.

Lemma loop_keeps_timer_mode_witness :
  0 <= 5 < 32
  /\ Z.testbit (GPTIMER_CTRCTL_EN_ENABLED mspm0_header) 5 = false
  /\ Z.testbit (run mspm0_header [0; 0x07800000; 0] loop_entry
                  (TIMA1, COUNTERREGS_CTRCTL)) 5
     = Z.testbit (loop_entry (TIMA1, COUNTERREGS_CTRCTL)) 5.
Proof.
  assert (Hi : 0 <= 5 < 32) by lia.
  split; [exact Hi |]. split; [reflexivity |].
  apply (loop_keeps_timer_mode mspm0_header [0; 0x07800000; 0] loop_entry 5
           Hi eq_refl).
Defined.
